(** * RPC runner of the meta-schedule: a shallow embedding

    Source: python/tvm/meta_schedule/runner/rpc_runner.py

    The embedding follows the Python file top-down: the exception classes the
    code matches on, [RunnerResult], [RPCRunnerFuture], the worker pool, the
    [RPCRunner] with its constructor, [run], [_sanity_check] and
    [_worker_func], and the five default lifecycle functions.  The remote
    execution transport is an opaque capability (class [Remote]); code that
    lives in other modules of the repository is modelled next to its use and
    marked as such. *)

From Stdlib Require Import ZArith Ascii String List Lia PrimFloat.
From stdpp Require Import base option list strings gmap.
Import ListNotations.

Local Open Scope Z_scope.
Local Open Scope string_scope.
Local Open Scope list_scope.

(* ===================================================================== *)
(** ** Python exceptions *)
(* ===================================================================== *)

(** The exception classes that the runner raises or matches on, with the
    part of the built-in class hierarchy that [except] clauses consult. *)
Inductive ExcClass : Type :=
  | BaseException
  | KeyboardInterrupt
  | SystemExit
  | Exception
  | OSError
  | TimeoutError
  | RuntimeError
  | NotImplementedError
  | AttributeError
  | TypeError
  | LookupError
  | IndexError
  | ValueError
  | ResolutionError. (* the resolver's error for an unregistered name *)

#[global] Instance ExcClass_eq_dec : EqDecision ExcClass.
Proof. solve_decision. Defined.

(** Method resolution order of each class (the class itself first). *)
Definition mro (c : ExcClass) : list ExcClass :=
  match c with
  | BaseException => [BaseException]
  | KeyboardInterrupt => [KeyboardInterrupt; BaseException]
  | SystemExit => [SystemExit; BaseException]
  | Exception => [Exception; BaseException]
  | OSError => [OSError; Exception; BaseException]
  | TimeoutError => [TimeoutError; OSError; Exception; BaseException]
  | RuntimeError => [RuntimeError; Exception; BaseException]
  | NotImplementedError =>
      [NotImplementedError; RuntimeError; Exception; BaseException]
  | AttributeError => [AttributeError; Exception; BaseException]
  | TypeError => [TypeError; Exception; BaseException]
  | LookupError => [LookupError; Exception; BaseException]
  | IndexError => [IndexError; LookupError; Exception; BaseException]
  | ValueError => [ValueError; Exception; BaseException]
  | ResolutionError => [ResolutionError; Exception; BaseException]
  end.

Definition issubclass (c base : ExcClass) : bool :=
  bool_decide (base ∈ mro c).

(** A raised exception object: its class and what [str(exception)] gives. *)
Record exn : Type := mkExn { exc_class : ExcClass; exc_str : string }.

Definition isinstance (e : exn) (base : ExcClass) : bool :=
  issubclass (exc_class e) base.

(** Outcome of a Python call: [inl e] when it raises [e]. *)
Definition Result (A : Type) : Type := (exn + A)%type.

(* ===================================================================== *)
(** ** RunnerResult and RPCRunnerFuture *)
(* ===================================================================== *)

Definition newline : string := String (Ascii.ascii_of_nat 10) EmptyString.

(** [RunnerResult(run_secs, error_msg)], both fields [Optional]. *)
Record RunnerResult : Type := mkRunnerResult {
  run_secs : option (list float);
  error_msg : option string
}.

(** [concurrent.futures.Future] as the pool hands it out: the handle of one
    submission, numbered in submission order. *)
Record Future : Type := mkFuture { future_id : nat }.

Record RPCRunnerFuture : Type := mkRPCRunnerFuture {
  future : Future;
  timeout_sec : float
}.

Section FutureResult.

(** What [future.result()] evaluates to once the wait is over: the list
    returned by the task, or the exception it re-raises. *)
Variable Future_result : Future -> Result (list float).

(** Rendering of a float inside an f-string. *)
Variable format_float : float -> string.

(** [RPCRunnerFuture.result]. *)
Definition RPCRunnerFuture_result (self : RPCRunnerFuture)
  : Result RunnerResult :=
  match Future_result (future self) with
  | inr run_secs => inr (mkRunnerResult (Some run_secs) None)
  | inl exception =>
      if isinstance exception TimeoutError then
        inr (mkRunnerResult None
               (Some ("RPCRunner: Timeout, killed after "
                      +:+ format_float (timeout_sec self) +:+ " seconds")))
      else if isinstance exception Exception then
        inr (mkRunnerResult None
               (Some ("RPCRunner: An exception occurred" +:+ newline
                      +:+ exc_str exception)))
      else inl exception
  end.

End FutureResult.

(* ===================================================================== *)
(** ** Data crossing the process boundary *)
(* ===================================================================== *)

(** JSON values as Python objects ([T_ARG_INFO_JSON_OBJ = List[Any]]). *)
#[warnings="-register-all"] Inductive Json : Type :=
  | JNone
  | JBool (b : bool)
  | JInt (z : Z)
  | JStr (s : string)
  | JList (l : list Json).

Definition T_ARG_INFO_JSON_OBJ : Type := list Json.
Definition T_ARG_INFO_JSON_OBJ_LIST : Type := list T_ARG_INFO_JSON_OBJ.

(** Modelled from the spec: [RPCConfig] of [runner/config.py], which is not
    part of this file.  Connection parameters plus [session_timeout_sec],
    the ceiling for one measurement lifecycle. *)
Record RPCConfig : Type := mkRPCConfig {
  tracker_host : option string;
  tracker_port : option Z;
  tracker_key : option string;
  session_priority : Z;
  session_timeout_sec : float
}.

(** Modelled from the spec: [EvaluatorConfig] of [runner/config.py]. *)
Record EvaluatorConfig : Type := mkEvaluatorConfig {
  number : Z;
  repeat : Z;
  min_repeat_ms : Z;
  enable_cpu_cache_flush : bool
}.

(** Modelled from the spec: [ArgInfo] of [arg_info.py]; the runner only
    calls [as_json] on it. *)
Record ArgInfo : Type := mkArgInfo { as_json : T_ARG_INFO_JSON_OBJ }.

(** Modelled from the spec: [RunnerInput] of [runner/runner.py]. *)
Record RunnerInput : Type := mkRunnerInput {
  artifact_path : string;
  device_type : string;
  args_info : list ArgInfo
}.

(** [profile_result.results] of one timed invocation. *)
Record ProfileResult : Type := mkProfileResult { results : list float }.

(** [osp.split(path)[1]] (posixpath): what follows the last slash. *)
Fixpoint osp_tail (acc p : string) : string :=
  match p with
  | EmptyString => acc
  | String c rest =>
      if Ascii.eqb c "/"%char then osp_tail rest rest else osp_tail acc rest
  end.

Definition osp_split_tail (p : string) : string := osp_tail p p.

(* ===================================================================== *)
(** ** The opaque remote capability *)
(* ===================================================================== *)

(** Everything the runner consumes without defining it: the handle types,
    the state [World] of worker process and remote endpoint that the remote
    calls act on, and those calls themselves.  A call takes the world and
    gives back its outcome and the world after it. *)
Class Remote : Type := {
  World : Type;
  RPCSession : Type;
  Device : Type;
  RuntimeModule : Type;
  NDArray : Type;
  RemoteFunc : Type;
  Evaluator : Type;
  (* RPCConfig / EvaluatorConfig defaults filled in by [_normalized] *)
  RPCConfig_default : RPCConfig;
  EvaluatorConfig_default : EvaluatorConfig;
  (* rpc_config.connect_server() *)
  connect_server : RPCConfig -> World -> Result RPCSession * World;
  (* session.device(dev_type, dev_id) *)
  session_device : RPCSession -> string -> Z -> World -> Result Device * World;
  (* session.upload(local_path, remote_path) *)
  session_upload : RPCSession -> string -> string -> World -> Result unit * World;
  (* session.load_module(remote_path) *)
  session_load_module : RPCSession -> string -> World -> Result RuntimeModule * World;
  (* session.remove(remote_path) *)
  session_remove : RPCSession -> string -> World -> Result unit * World;
  (* get_global_func_on_rpc_session(session, name, extra_error_msg) *)
  get_global_func_on_rpc_session :
    RPCSession -> string -> string -> World -> Result RemoteFunc * World;
  (* calling the remote function on one array *)
  RemoteFunc_call : RemoteFunc -> NDArray -> World -> Result unit * World;
  (* ndarray.empty(shape, dtype, device) *)
  ndarray_empty : Json -> Json -> Device -> World -> Result NDArray * World;
  (* rt_mod.entry_name *)
  entry_name : RuntimeModule -> string;
  (* rt_mod.time_evaluator(func_name, dev, number, repeat, min_repeat_ms,
     f_preproc) *)
  time_evaluator :
    RuntimeModule -> string -> Device -> Z -> Z -> Z -> string ->
    World -> Result Evaluator * World;
  (* device.sync() *)
  device_sync : Device -> World -> Result unit * World;
  (* evaluator( *args ) *)
  Evaluator_call :
    Evaluator -> list NDArray -> World -> Result ProfileResult * World;
  (* str(NotImplementedError( *arg_info )) *)
  str_of_args : list Json -> string
}.

Definition T_ARGUMENT `{Remote} : Type := NDArray.
Definition T_ARGUMENT_LIST `{Remote} : Type := list T_ARGUMENT.

(** A computation against the remote capability. *)
Definition Op `{Remote} (A : Type) : Type := World -> Result A * World.

Definition op_ret `{Remote} {A} (a : A) : Op A := fun w => (inr a, w).

Definition op_raise `{Remote} {A} (e : exn) : Op A := fun w => (inl e, w).

Definition op_bind `{Remote} {A B} (c : Op A) (k : A -> Op B) : Op B :=
  fun w =>
    match c w with
    | (inl e, w') => (inl e, w')
    | (inr a, w') => k a w'
    end.

Declare Scope op_scope.
Delimit Scope op_scope with op.
Notation "x <- c ;; k" := (op_bind c (fun x => k))
  (at level 100, c at next level, right associativity) : op_scope.
Notation "c ;;; k" := (op_bind c (fun _ => k))
  (at level 100, right associativity) : op_scope.

Local Open Scope op_scope.

(* ===================================================================== *)
(** ** Default lifecycle functions *)
(* ===================================================================== *)

Section Defaults.

Context `{Remote}.

(** [default_create_session]. *)
Definition default_create_session (rpc_config : RPCConfig) : Op RPCSession :=
  connect_server rpc_config.

(** [default_upload_module]. *)
Definition default_upload_module (session : RPCSession)
    (local_path remote_path : string) : Op RuntimeModule :=
  session_upload session local_path remote_path ;;;
  rt_mod <- session_load_module session remote_path ;;
  op_ret rt_mod.

(** A handler of the allocation dispatcher, applied as
    [handler( *arg_info )]. *)
Definition Handler : Type := T_ARG_INFO_JSON_OBJ -> Op T_ARGUMENT.

(** [alloc_tensor(_, dtype, shape)]: exactly three positional arguments. *)
Definition alloc_tensor (f_random_fill : RemoteFunc) (device : Device)
  : Handler :=
  fun arg_info =>
    match arg_info with
    | [_; dtype; shape] =>
        arg <- ndarray_empty shape dtype device ;;
        RemoteFunc_call f_random_fill arg ;;;
        op_ret arg
    | _ =>
        op_raise (mkExn TypeError
                    "alloc_tensor() takes 3 positional arguments")
    end.

(** [alloc_fail( *arg_info )]. *)
Definition alloc_fail : Handler :=
  fun arg_info => op_raise (mkExn NotImplementedError (str_of_args arg_info)).

(** [dispatcher.get(arg_type, None)] on the dict
    [{"TENSOR": alloc_tensor, None: alloc_fail}]: the entry of the key when
    there is one, the default [None] for any other hashable key; hashing a
    list raises. *)
Definition dispatcher_get (f_random_fill : RemoteFunc) (device : Device)
    (arg_type : Json) : Result (option Handler) :=
  match arg_type with
  | JStr s =>
      if String.eqb s "TENSOR"
      then inr (Some (alloc_tensor f_random_fill device))
      else inr None
  | JNone => inr (Some alloc_fail)
  | JBool _ | JInt _ => inr None
  | JList _ => inl (mkExn TypeError "unhashable type: 'list'")
  end.

(** One turn of the inner loop up to [args.append]:
    [arg_type = arg_info[0]; arg = dispatcher.get(arg_type, None)( *arg_info )]. *)
Definition alloc_one (f_random_fill : RemoteFunc) (device : Device)
    (arg_info : T_ARG_INFO_JSON_OBJ) : Op T_ARGUMENT :=
  match arg_info with
  | [] => op_raise (mkExn IndexError "list index out of range")
  | arg_type :: _ =>
      match dispatcher_get f_random_fill device arg_type with
      | inl e => op_raise e
      | inr None =>
          op_raise (mkExn TypeError "'NoneType' object is not callable")
      | inr (Some handler) => handler arg_info
      end
  end.

(** [for arg_info in args_info: ...; args.append(arg)]. *)
Fixpoint alloc_args (f_random_fill : RemoteFunc) (device : Device)
    (args_info : T_ARG_INFO_JSON_OBJ_LIST) (args : T_ARGUMENT_LIST)
  : Op T_ARGUMENT_LIST :=
  match args_info with
  | [] => op_ret args
  | arg_info :: rest =>
      arg <- alloc_one f_random_fill device arg_info ;;
      alloc_args f_random_fill device rest (args ++ [arg])
  end.

(** [for _ in range(n): args = []; ...; repeated_args.append(args)]. *)
Fixpoint alloc_repeats (f_random_fill : RemoteFunc) (device : Device)
    (args_info : T_ARG_INFO_JSON_OBJ_LIST) (n : nat)
    (repeated_args : list T_ARGUMENT_LIST) : Op (list T_ARGUMENT_LIST) :=
  match n with
  | O => op_ret repeated_args
  | S n' =>
      args <- alloc_args f_random_fill device args_info [] ;;
      alloc_repeats f_random_fill device args_info n' (repeated_args ++ [args])
  end.

(** [default_alloc_argument]; [range(alloc_repeat)] has
    [Z.to_nat alloc_repeat] elements (none for a negative count). *)
Definition default_alloc_argument (session : RPCSession) (device : Device)
    (args_info : T_ARG_INFO_JSON_OBJ_LIST) (alloc_repeat : Z)
  : Op (list T_ARGUMENT_LIST) :=
  f_random_fill <-
    get_global_func_on_rpc_session session
      "tvm.contrib.random.random_fill"
      "Please make sure 'USE_RANDOM' is turned ON in the config.cmake on the RPC server." ;;
  alloc_repeats f_random_fill device args_info (Z.to_nat alloc_repeat) [].

(** [float(cost)] of a float. *)
Definition Python_float (cost : float) : float := cost.

(** [for args in repeated_args: device.sync(); ...;
    repeated_costs.append(profile_result.results)]. *)
Fixpoint run_each (evaluator : Evaluator) (device : Device)
    (repeated_args : list T_ARGUMENT_LIST)
    (repeated_costs : list (list float)) : Op (list (list float)) :=
  match repeated_args with
  | [] => op_ret repeated_costs
  | args :: rest =>
      device_sync device ;;;
      profile_result <- Evaluator_call evaluator args ;;
      run_each evaluator device rest
        (repeated_costs ++ [results profile_result])
  end.

(** [default_run_evaluator]. *)
Definition default_run_evaluator (session : RPCSession) (rt_mod : RuntimeModule)
    (device : Device) (evaluator_config : EvaluatorConfig)
    (repeated_args : list T_ARGUMENT_LIST) : Op (list float) :=
  evaluator <-
    time_evaluator rt_mod (entry_name rt_mod) device
      (number evaluator_config) (repeat evaluator_config)
      (min_repeat_ms evaluator_config)
      (if enable_cpu_cache_flush evaluator_config
       then "cache_flush_cpu_non_first_arg" else EmptyString) ;;
  repeated_costs <- run_each evaluator device repeated_args [] ;;
  op_ret (map Python_float (concat repeated_costs)).

(** [default_cleanup]. *)
Definition default_cleanup (session : option RPCSession)
    (remote_path : option string) : Op unit :=
  match session, remote_path with
  | Some session, Some remote_path =>
      session_remove session remote_path ;;;
      session_remove session (remote_path +:+ ".so") ;;;
      session_remove session EmptyString
  | _, _ => op_ret tt
  end.

End Defaults.

(* ===================================================================== *)
(** ** The worker task *)
(* ===================================================================== *)

(** [Union[F, str, None]] is [option (NameOrCallable F)]. *)
Inductive NameOrCallable (F : Type) : Type :=
  | Name (name : string)
  | Callable (f : F).

Arguments Name {F} name.
Arguments Callable {F} f.

Section Worker.

Context `{Remote}.

Definition T_CREATE_SESSION : Type := RPCConfig -> Op RPCSession.
Definition T_UPLOAD_MODULE : Type :=
  RPCSession -> string -> string -> Op RuntimeModule.
Definition T_ALLOC_ARGUMENT : Type :=
  RPCSession -> Device -> T_ARG_INFO_JSON_OBJ_LIST -> Z ->
  Op (list T_ARGUMENT_LIST).
Definition T_RUN_EVALUATOR : Type :=
  RPCSession -> RuntimeModule -> Device -> EvaluatorConfig ->
  list T_ARGUMENT_LIST -> Op (list float).
Definition T_CLEANUP : Type :=
  option RPCSession -> option string -> Op unit.

(** A function of the global registry.  It is dynamically typed: the
    record says what it does when called at each lifecycle signature. *)
Record PackedFunc : Type := mkPackedFunc {
  as_create_session : T_CREATE_SESSION;
  as_upload_module : T_UPLOAD_MODULE;
  as_alloc_argument : T_ALLOC_ARGUMENT;
  as_run_evaluator : T_RUN_EVALUATOR;
  as_cleanup : T_CLEANUP
}.

(** Modelled from the spec: [get_global_func_with_default_on_worker] of
    [meta_schedule/utils.py], which is not part of this file.  An unset
    override falls back to the default, a callable is taken as it is, a
    name is looked up in the registry of the process that runs the call
    and an unregistered name is a resolution error. *)
Definition get_global_func_with_default_on_worker {F : Type}
    (registry : gmap string PackedFunc) (view : PackedFunc -> F)
    (name : option (NameOrCallable F)) (default : F) : Result F :=
  match name with
  | None => inr default
  | Some (Callable f) => inr f
  | Some (Name n) =>
      match registry !! n with
      | Some func => inr (view func)
      | None =>
          inl (mkExn ResolutionError
                 ("Function '" +:+ n +:+ "' is not registered on the worker process"))
      end
  end.

(** The calls a task makes to its five lifecycle functions, with their
    arguments, in the order made. *)
Inductive Call : Type :=
  | CallCreateSession (rpc_config : RPCConfig)
  | CallUploadModule (session : RPCSession) (local_path remote_path : string)
  | CallAllocArgument (session : RPCSession) (device : Device)
      (args_info : T_ARG_INFO_JSON_OBJ_LIST) (alloc_repeat : Z)
  | CallRunEvaluator (session : RPCSession) (rt_mod : RuntimeModule)
      (device : Device) (evaluator_config : EvaluatorConfig)
      (repeated_args : list T_ARGUMENT_LIST)
  | CallCleanup (session : option RPCSession) (remote_path : option string).

Definition is_cleanup (c : Call) : bool :=
  match c with CallCleanup _ _ => true | _ => false end.

(** The frame of one [_worker_func] activation: the world, the lifecycle
    calls made so far, and the two managed locals that the closure
    [resource_handler] reads when it runs. *)
Record Frame : Type := mkFrame {
  world : World;
  calls : list Call;
  session : option RPCSession;
  remote_path : option string
}.

Definition Body (A : Type) : Type := Frame -> Result A * Frame.

Definition body_ret {A} (a : A) : Body A := fun fr => (inr a, fr).

Definition body_bind {A B} (c : Body A) (k : A -> Body B) : Body B :=
  fun fr =>
    match c fr with
    | (inl e, fr') => (inl e, fr')
    | (inr a, fr') => k a fr'
    end.

(** A call of a lifecycle function: recorded, then run on the world. *)
Definition invoke {A} (c : Call) (f : Op A) : Body A :=
  fun fr =>
    let '(r, w) := f (world fr) in
    (r, mkFrame w (calls fr ++ [c]) (session fr) (remote_path fr)).

(** A direct call on the remote capability. *)
Definition remote {A} (f : Op A) : Body A :=
  fun fr =>
    let '(r, w) := f (world fr) in
    (r, mkFrame w (calls fr) (session fr) (remote_path fr)).

Definition set_session (s : RPCSession) : Body unit :=
  fun fr => (inr tt, mkFrame (world fr) (calls fr) (Some s) (remote_path fr)).

Definition set_remote_path (p : string) : Body unit :=
  fun fr => (inr tt, mkFrame (world fr) (calls fr) (session fr) (Some p)).

(** [with resource_handler(): body], where [resource_handler] is
    [try: yield finally: f_cleanup(session, remote_path)].  The [finally]
    block runs when the body returns and when it raises, reading the
    locals as they are then; an exception of the cleanup call leaves the
    block in place of whatever the body produced. *)
Definition resource_handler {A} (f_cleanup : T_CLEANUP) (body : Body A)
  : Body A :=
  fun fr =>
    let '(outcome, fr1) := body fr in
    let '(cleaned, fr2) :=
      invoke (CallCleanup (session fr1) (remote_path fr1))
             (f_cleanup (session fr1) (remote_path fr1)) fr1 in
    match cleaned with
    | inl e => (inl e, fr2)
    | inr _ => (outcome, fr2)
    end.

(** The five functions after Step 0. *)
Record Lifecycle : Type := mkLifecycle {
  resolved_create_session : T_CREATE_SESSION;
  resolved_upload_module : T_UPLOAD_MODULE;
  resolved_alloc_argument : T_ALLOC_ARGUMENT;
  resolved_run_evaluator : T_RUN_EVALUATOR;
  resolved_cleanup : T_CLEANUP
}.

(** Step 0 of [_worker_func]: get the registered functions. *)
Definition _worker_resolve (registry : gmap string PackedFunc)
    (_f_create_session : option (NameOrCallable T_CREATE_SESSION))
    (_f_upload_module : option (NameOrCallable T_UPLOAD_MODULE))
    (_f_alloc_argument : option (NameOrCallable T_ALLOC_ARGUMENT))
    (_f_run_evaluator : option (NameOrCallable T_RUN_EVALUATOR))
    (_f_cleanup : option (NameOrCallable T_CLEANUP)) : Result Lifecycle :=
  match get_global_func_with_default_on_worker registry as_create_session
          _f_create_session default_create_session with
  | inl e => inl e
  | inr f_create_session =>
  match get_global_func_with_default_on_worker registry as_upload_module
          _f_upload_module default_upload_module with
  | inl e => inl e
  | inr f_upload_module =>
  match get_global_func_with_default_on_worker registry as_alloc_argument
          _f_alloc_argument default_alloc_argument with
  | inl e => inl e
  | inr f_alloc_argument =>
  match get_global_func_with_default_on_worker registry as_run_evaluator
          _f_run_evaluator default_run_evaluator with
  | inl e => inl e
  | inr f_run_evaluator =>
  match get_global_func_with_default_on_worker registry as_cleanup
          _f_cleanup default_cleanup with
  | inl e => inl e
  | inr f_cleanup =>
      inr (mkLifecycle f_create_session f_upload_module f_alloc_argument
             f_run_evaluator f_cleanup)
  end end end end end.

(** Steps 1 to 4: the body of the [with] block. *)
Definition _worker_steps (fs : Lifecycle) (rpc_config : RPCConfig)
    (evaluator_config : EvaluatorConfig) (alloc_repeat : Z)
    (artifact_path device_type : string)
    (args_info : T_ARG_INFO_JSON_OBJ_LIST) : Body (list float) :=
  body_bind (invoke (CallCreateSession rpc_config)
               (resolved_create_session fs rpc_config)) (fun s =>
  body_bind (set_session s) (fun _ =>
  body_bind (remote (session_device s device_type 0)) (fun device =>
  body_bind (set_remote_path (osp_split_tail artifact_path)) (fun _ =>
  let remote_path := osp_split_tail artifact_path in
  let local_path := artifact_path in
  body_bind (invoke (CallUploadModule s local_path remote_path)
               (resolved_upload_module fs s local_path remote_path)) (fun rt_mod =>
  body_bind (invoke (CallAllocArgument s device args_info alloc_repeat)
               (resolved_alloc_argument fs s device args_info alloc_repeat))
    (fun repeated_args =>
  body_bind (invoke (CallRunEvaluator s rt_mod device evaluator_config
                       repeated_args)
               (resolved_run_evaluator fs s rt_mod device evaluator_config
                  repeated_args)) (fun costs =>
  body_ret costs))))))).

(** [RPCRunner._worker_func], run in a worker process whose registry is
    [registry], on the world [w].  The result comes with the final frame:
    the world after the task, the lifecycle calls it made, and the managed
    locals as the cleanup saw them. *)
Definition _worker_func (registry : gmap string PackedFunc)
    (_f_create_session : option (NameOrCallable T_CREATE_SESSION))
    (_f_upload_module : option (NameOrCallable T_UPLOAD_MODULE))
    (_f_alloc_argument : option (NameOrCallable T_ALLOC_ARGUMENT))
    (_f_run_evaluator : option (NameOrCallable T_RUN_EVALUATOR))
    (_f_cleanup : option (NameOrCallable T_CLEANUP))
    (rpc_config : RPCConfig) (evaluator_config : EvaluatorConfig)
    (alloc_repeat : Z) (artifact_path device_type : string)
    (args_info : T_ARG_INFO_JSON_OBJ_LIST) (w : World)
  : Result (list float) * Frame :=
  let frame := mkFrame w [] None None in
  match _worker_resolve registry _f_create_session _f_upload_module
          _f_alloc_argument _f_run_evaluator _f_cleanup with
  | inl e => (inl e, frame)
  | inr fs =>
      resource_handler (resolved_cleanup fs)
        (_worker_steps fs rpc_config evaluator_config alloc_repeat
           artifact_path device_type args_info) frame
  end.

End Worker.

(* ===================================================================== *)
(** ** The worker pool and the runner *)
(* ===================================================================== *)

(** The override of each role as a checking task sees it: resolved with
    [default=None], so the resolved value is optional. *)
Definition as_optional {F : Type} (name : option (NameOrCallable F))
  : option (NameOrCallable (option F)) :=
  match name with
  | None => None
  | Some (Name n) => Some (Name n)
  | Some (Callable f) => Some (Callable (Some f))
  end.

Section Runner.

Context `{Remote}.

(** The registry of a worker process when it starts, before the pool's
    [initializer] has run in it. *)
Variable startup_registry : gmap string PackedFunc.

(** An initializer runs once in each worker process; what the runner can
    observe of it is the registry it leaves behind. *)
Definition Initializer : Type :=
  gmap string PackedFunc -> gmap string PackedFunc.

(** What is handed to [pool.submit]: the function and its arguments. *)
Inductive Task : Type :=
  | Task_check
      (f_create_session : option (NameOrCallable T_CREATE_SESSION))
      (f_upload_module : option (NameOrCallable T_UPLOAD_MODULE))
      (f_alloc_argument : option (NameOrCallable T_ALLOC_ARGUMENT))
      (f_run_evaluator : option (NameOrCallable T_RUN_EVALUATOR))
      (f_cleanup : option (NameOrCallable T_CLEANUP))
  | Task_worker_func
      (f_create_session : option (NameOrCallable T_CREATE_SESSION))
      (f_upload_module : option (NameOrCallable T_UPLOAD_MODULE))
      (f_alloc_argument : option (NameOrCallable T_ALLOC_ARGUMENT))
      (f_run_evaluator : option (NameOrCallable T_RUN_EVALUATOR))
      (f_cleanup : option (NameOrCallable T_CLEANUP))
      (rpc_config : RPCConfig) (evaluator_config : EvaluatorConfig)
      (alloc_repeat : Z) (artifact_path device_type : string)
      (args_info : T_ARG_INFO_JSON_OBJ_LIST).

(** Modelled from the spec: [PopenPoolExecutor] of
    [tvm/contrib/popen_pool.py], which is not part of this file.  A pool
    of worker processes; [submit] queues one task and hands back its
    future, and the tasks are kept in submission order. *)
Record PopenPoolExecutor : Type := mkPopenPoolExecutor {
  max_workers : Z;
  timeout : float;
  initializer : option Initializer;
  submitted : list Task
}.

Definition PopenPoolExecutor_submit (pool : PopenPoolExecutor) (task : Task)
  : PopenPoolExecutor * Future :=
  (mkPopenPoolExecutor (max_workers pool) (timeout pool) (initializer pool)
     (submitted pool ++ [task]),
   mkFuture (length (submitted pool))).

(** The registry that a task finds in the worker process running it. *)
Definition worker_registry (pool : PopenPoolExecutor)
  : gmap string PackedFunc :=
  match initializer pool with
  | None => startup_registry
  | Some init => init startup_registry
  end.

(** Modelled from the spec: [RPCConfig._normalized] of [runner/config.py],
    the normalization of an optional config, the defaults standing in for
    a missing one. *)
Definition RPCConfig_normalized (config : option RPCConfig) : RPCConfig :=
  match config with
  | None => RPCConfig_default
  | Some config => config
  end.

(** Modelled from the spec: [EvaluatorConfig._normalized], likewise. *)
Definition EvaluatorConfig_normalized (config : option EvaluatorConfig)
  : EvaluatorConfig :=
  match config with
  | None => EvaluatorConfig_default
  | Some config => config
  end.

Record RPCRunner : Type := mkRPCRunner {
  rpc_config : RPCConfig;
  evaluator_config : EvaluatorConfig;
  cooldown_sec : float;
  alloc_repeat : Z;
  f_create_session : option (NameOrCallable T_CREATE_SESSION);
  f_upload_module : option (NameOrCallable T_UPLOAD_MODULE);
  f_alloc_argument : option (NameOrCallable T_ALLOC_ARGUMENT);
  f_run_evaluator : option (NameOrCallable T_RUN_EVALUATOR);
  f_cleanup : option (NameOrCallable T_CLEANUP);
  pool : PopenPoolExecutor
}.

Definition with_pool (self : RPCRunner) (pool' : PopenPoolExecutor)
  : RPCRunner :=
  mkRPCRunner (rpc_config self) (evaluator_config self) (cooldown_sec self)
    (alloc_repeat self) (f_create_session self) (f_upload_module self)
    (f_alloc_argument self) (f_run_evaluator self) (f_cleanup self) pool'.

(** The local function [_check] of [_sanity_check], run in a process
    whose registry is [registry]. *)
Definition _check (registry : gmap string PackedFunc)
    (f_create_session : option (NameOrCallable T_CREATE_SESSION))
    (f_upload_module : option (NameOrCallable T_UPLOAD_MODULE))
    (f_alloc_argument : option (NameOrCallable T_ALLOC_ARGUMENT))
    (f_run_evaluator : option (NameOrCallable T_RUN_EVALUATOR))
    (f_cleanup : option (NameOrCallable T_CLEANUP)) : Result unit :=
  match get_global_func_with_default_on_worker registry
          (fun func => Some (as_create_session func))
          (as_optional f_create_session) None with
  | inl e => inl e
  | inr _ =>
  match get_global_func_with_default_on_worker registry
          (fun func => Some (as_upload_module func))
          (as_optional f_upload_module) None with
  | inl e => inl e
  | inr _ =>
  match get_global_func_with_default_on_worker registry
          (fun func => Some (as_alloc_argument func))
          (as_optional f_alloc_argument) None with
  | inl e => inl e
  | inr _ =>
  match get_global_func_with_default_on_worker registry
          (fun func => Some (as_run_evaluator func))
          (as_optional f_run_evaluator) None with
  | inl e => inl e
  | inr _ =>
  match get_global_func_with_default_on_worker registry
          (fun func => Some (as_cleanup func))
          (as_optional f_cleanup) None with
  | inl e => inl e
  | inr _ => inr tt
  end end end end end.

(** [RPCRunner._sanity_check]: [_check] is submitted to the pool, so it
    runs against the registry of a worker process, and [value.result()]
    re-raises in the caller what it raised there.  The wait is taken at its
    outcome; the pool's own timeout on the check is left out. *)
Definition _sanity_check (self : RPCRunner) : Result unit * RPCRunner :=
  let '(pool', value) :=
    PopenPoolExecutor_submit (pool self)
      (Task_check (f_create_session self) (f_upload_module self)
         (f_alloc_argument self) (f_run_evaluator self) (f_cleanup self)) in
  (_check (worker_registry pool') (f_create_session self)
     (f_upload_module self) (f_alloc_argument self) (f_run_evaluator self)
     (f_cleanup self),
   with_pool self pool').

(** [rpc_config.session_timeout_sec] on the constructor's raw argument. *)
Definition getattr_session_timeout_sec (rpc_config : option RPCConfig)
  : Result float :=
  match rpc_config with
  | None =>
      inl (mkExn AttributeError
             "'NoneType' object has no attribute 'session_timeout_sec'")
  | Some config => inr (session_timeout_sec config)
  end.

(** [RPCRunner.__init__]. *)
Definition RPCRunner__init__ (rpc_config : option RPCConfig)
    (evaluator_config : option EvaluatorConfig) (cooldown_sec : float)
    (alloc_repeat : Z)
    (f_create_session : option (NameOrCallable T_CREATE_SESSION))
    (f_upload_module : option (NameOrCallable T_UPLOAD_MODULE))
    (f_alloc_argument : option (NameOrCallable T_ALLOC_ARGUMENT))
    (f_run_evaluator : option (NameOrCallable T_RUN_EVALUATOR))
    (f_cleanup : option (NameOrCallable T_CLEANUP))
    (max_workers : Z) (initializer : option Initializer)
  : Result RPCRunner :=
  let self_rpc_config := RPCConfig_normalized rpc_config in
  let self_evaluator_config := EvaluatorConfig_normalized evaluator_config in
  match getattr_session_timeout_sec rpc_config with
  | inl e => inl e
  | inr timeout =>
      let self :=
        mkRPCRunner self_rpc_config self_evaluator_config cooldown_sec
          alloc_repeat f_create_session f_upload_module f_alloc_argument
          f_run_evaluator f_cleanup
          (mkPopenPoolExecutor max_workers timeout initializer []) in
      match _sanity_check self with
      | (inl e, _) => inl e
      | (inr _, self') => inr self'
      end
  end.

(** The task that [run] builds from one input. *)
Definition worker_task (self : RPCRunner) (runner_input : RunnerInput)
  : Task :=
  Task_worker_func (f_create_session self) (f_upload_module self)
    (f_alloc_argument self) (f_run_evaluator self) (f_cleanup self)
    (rpc_config self) (evaluator_config self) (alloc_repeat self)
    (artifact_path runner_input) (device_type runner_input)
    (map as_json (args_info runner_input)).

(** The loop of [RPCRunner.run]; [self.pool] changes with each submit. *)
Fixpoint run_loop (self : RPCRunner) (runner_inputs : list RunnerInput)
    (results : list RPCRunnerFuture) : list RPCRunnerFuture * RPCRunner :=
  match runner_inputs with
  | [] => (results, self)
  | runner_input :: rest =>
      let '(pool', fut) :=
        PopenPoolExecutor_submit (pool self) (worker_task self runner_input) in
      let future :=
        mkRPCRunnerFuture fut (session_timeout_sec (rpc_config self)) in
      run_loop (with_pool self pool') rest (results ++ [future])
  end.

(** [RPCRunner.run]. *)
Definition run (self : RPCRunner) (runner_inputs : list RunnerInput)
  : list RPCRunnerFuture * RPCRunner :=
  run_loop self runner_inputs [].

End Runner.

(* ===================================================================== *)
(** ** Notions used in the statements *)
(* ===================================================================== *)

(** The futures of [n] submissions to a pool that held [first] tasks. *)
Definition futures_from (t : float) (first n : nat) : list RPCRunnerFuture :=
  map (fun i => mkRPCRunnerFuture (mkFuture i) t) (seq first n).

(** The same runner with another cooldown. *)
Definition with_cooldown_sec `{Remote} (self : RPCRunner) (cooldown : float)
  : RPCRunner :=
  mkRPCRunner (rpc_config self) (evaluator_config self) cooldown
    (alloc_repeat self) (f_create_session self) (f_upload_module self)
    (f_alloc_argument self) (f_run_evaluator self) (f_cleanup self)
    (pool self).

(** How many of the recorded calls are calls of the cleanup function. *)
Definition cleanup_count `{Remote} (l : list Call) : nat :=
  length (List.filter is_cleanup l).

(** The entry carries the kind tag ["TENSOR"]. *)
Definition is_tensor_kind (arg_info : T_ARG_INFO_JSON_OBJ) : bool :=
  match arg_info with
  | JStr s :: _ => String.eqb s "TENSOR"
  | _ => false
  end.


(** A timing sample that is not negative. *)
Definition nonneg (x : float) : Prop := PrimFloat.leb 0%float x = true.

(** The assumption on the timing harness: an evaluator built with
    [repeat = K] gives, on each invocation that returns, [K] samples, none
    of them negative. *)
Definition samples_per_invocation `{Remote} (K : Z) : Prop :=
  forall rt_mod func_name device number min_repeat_ms f_preproc w evaluator w1,
    time_evaluator rt_mod func_name device number K min_repeat_ms f_preproc w
    = (inr evaluator, w1) ->
    forall args w2 profile_result w3,
      Evaluator_call evaluator args w2 = (inr profile_result, w3) ->
      Z.of_nat (length (results profile_result)) = K /\
      Forall nonneg (results profile_result).

(** The timed invocations of one task, in order: one per argument list,
    each after a device sync, each continuing in the world the previous one
    left; the third index collects their sample lists in the same order. *)
Inductive Timed `{Remote} (evaluator : Evaluator) (device : Device)
  : World -> list T_ARGUMENT_LIST -> list (list float) -> World -> Prop :=
  | Timed_nil (w : World) : Timed evaluator device w [] [] w
  | Timed_cons (w w1 w2 w3 : World) (u : unit) (args : T_ARGUMENT_LIST)
      (rest : list T_ARGUMENT_LIST) (profile_result : ProfileResult)
      (samples : list (list float)) :
      device_sync device w = (inr u, w1) ->
      Evaluator_call evaluator args w1 = (inr profile_result, w2) ->
      Timed evaluator device w2 rest samples w3 ->
      Timed evaluator device w (args :: rest)
        (results profile_result :: samples) w3.

(** The path has a slash in it. *)
Fixpoint has_slash (p : string) : bool :=
  match p with
  | EmptyString => false
  | String c rest => if Ascii.eqb c "/"%char then true else has_slash rest
  end.

(** An override that resolution can serve from [registry]: unset, a
    callable, or a name that [registry] has. *)
Definition resolvable `{Remote} (registry : gmap string PackedFunc)
    {F : Type} (name : option (NameOrCallable F)) : Prop :=
  match name with
  | Some (Name n) => is_Some (registry !! n)
  | _ => True
  end.

(** The handles of a list of futures. *)
Definition future_ids (futures : list RPCRunnerFuture) : list nat :=
  map (fun fut => future_id (future fut)) futures.

(* ===================================================================== *)
(** ** A test double of the remote capability *)
(* ===================================================================== *)

(** The world is the log of remote calls; a timing harness built with
    [repeat = k] gives [k] samples of half a second per invocation. *)
Definition stub_remote : Remote := {|
  World := list string;
  RPCSession := unit;
  Device := unit;
  RuntimeModule := unit;
  NDArray := nat;
  RemoteFunc := unit;
  Evaluator := Z;
  RPCConfig_default := mkRPCConfig None None None 1 10%float;
  EvaluatorConfig_default := mkEvaluatorConfig 3 1 100 false;
  connect_server := fun _ w => (inr tt, w ++ ["connect"]);
  session_device := fun _ _ _ w => (inr tt, w);
  session_upload := fun _ _ remote_path w => (inr tt, w ++ ["upload " +:+ remote_path]);
  session_load_module := fun _ remote_path w => (inr tt, w ++ ["load " +:+ remote_path]);
  session_remove := fun _ remote_path w => (inr tt, w ++ ["remove " +:+ remote_path]);
  get_global_func_on_rpc_session := fun _ _ _ w => (inr tt, w);
  RemoteFunc_call := fun _ _ w => (inr tt, w ++ ["random_fill"]);
  ndarray_empty := fun _ _ _ w => (inr (length w), w ++ ["empty"]);
  entry_name := fun _ => "main";
  time_evaluator := fun _ _ _ _ repeat _ _ w => (inr repeat, w);
  device_sync := fun _ w => (inr tt, w ++ ["sync"]);
  Evaluator_call := fun k _ w =>
    (inr (mkProfileResult (replicate (Z.to_nat k) 0.5%float)), w ++ ["run"]);
  str_of_args := fun _ => "unsupported argument"
|}.

Definition stub_rpc_config : RPCConfig :=
  mkRPCConfig (Some "localhost") (Some 9190) (Some "key") 1 10%float.

Definition stub_evaluator_config : EvaluatorConfig :=
  mkEvaluatorConfig 1 3 0 false.

Definition stub_format_float (x : float) : string := "10.0".

(** The example request of the spec: one 128x128 float32 tensor. *)
Definition stub_tensor : T_ARG_INFO_JSON_OBJ :=
  [JStr "TENSOR"; JStr "float32"; JList [JInt 128; JInt 128]].

(** Lifecycle doubles that raise. *)
Definition failing_create_session : @T_CREATE_SESSION stub_remote :=
  fun _ => op_raise (mkExn RuntimeError "connection refused").

Definition failing_cleanup : @T_CLEANUP stub_remote :=
  fun _ _ => op_raise (mkExn OSError "remove failed").

(** More lifecycle doubles that raise. *)
Definition failing_upload_module : @T_UPLOAD_MODULE stub_remote :=
  fun _ _ _ => op_raise (mkExn OSError "upload failed").

Definition failing_alloc_argument : @T_ALLOC_ARGUMENT stub_remote :=
  fun _ _ _ _ => op_raise (mkExn RuntimeError "out of device memory").

Definition failing_run_evaluator : @T_RUN_EVALUATOR stub_remote :=
  fun _ _ _ _ _ => op_raise (mkExn RuntimeError "kernel launch failed").

(** The test double again, with a [session.device] or a [device.sync]
    that raises when asked to. *)
Definition stub_remote_failing (device_fails sync_fails : bool) : Remote := {|
  World := list string;
  RPCSession := unit;
  Device := unit;
  RuntimeModule := unit;
  NDArray := nat;
  RemoteFunc := unit;
  Evaluator := Z;
  RPCConfig_default := mkRPCConfig None None None 1 10%float;
  EvaluatorConfig_default := mkEvaluatorConfig 3 1 100 false;
  connect_server := fun _ w => (inr tt, w ++ ["connect"]);
  session_device := fun _ _ _ w =>
    if device_fails
    then (inl (mkExn ValueError "unknown device type"), w)
    else (inr tt, w);
  session_upload := fun _ _ remote_path w => (inr tt, w ++ ["upload " +:+ remote_path]);
  session_load_module := fun _ remote_path w => (inr tt, w ++ ["load " +:+ remote_path]);
  session_remove := fun _ remote_path w => (inr tt, w ++ ["remove " +:+ remote_path]);
  get_global_func_on_rpc_session := fun _ _ _ w => (inr tt, w);
  RemoteFunc_call := fun _ _ w => (inr tt, w ++ ["random_fill"]);
  ndarray_empty := fun _ _ _ w => (inr (length w), w ++ ["empty"]);
  entry_name := fun _ => "main";
  time_evaluator := fun _ _ _ _ repeat _ _ w => (inr repeat, w);
  device_sync := fun _ w =>
    if sync_fails
    then (inl (mkExn RuntimeError "device lost"), w)
    else (inr tt, w ++ ["sync"]);
  Evaluator_call := fun k _ w =>
    (inr (mkProfileResult (replicate (Z.to_nat k) 0.5%float)), w ++ ["run"]);
  str_of_args := fun _ => "unsupported argument"
|}.

Definition stub_remote_no_device : Remote := stub_remote_failing true false.

Definition stub_remote_no_sync : Remote := stub_remote_failing false true.

(** The example request of the spec as a [RunnerInput]. *)
Definition stub_request : RunnerInput :=
  mkRunnerInput "/tmp/mm.so" "cpu" [mkArgInfo stub_tensor].

(* ===================================================================== *)
(** * Properties *)
(* ===================================================================== *)

(** ** The exception hierarchy *)

Lemma TimeoutError_is_Exception (e : exn) :
  isinstance e TimeoutError = true -> isinstance e Exception = true.
Proof. destruct e as [c msg]. destruct c; vm_compute; congruence. Qed.

Lemma append_nonempty (c : ascii) (s t : string) :
  String c s +:+ t <> EmptyString.
Proof. discriminate. Qed.

(** ** RPCRunnerFuture.result *)

Section FutureFacts.

Variable Future_result : Future -> Result (list float).
Variable format_float : float -> string.

Lemma result_success (self : RPCRunnerFuture) (secs : list float) :
  Future_result (future self) = inr secs ->
  RPCRunnerFuture_result Future_result format_float self
  = inr (mkRunnerResult (Some secs) None).
Proof. intros Hf. unfold RPCRunnerFuture_result. now rewrite Hf. Qed.

Lemma result_timeout (self : RPCRunnerFuture) (e : exn) :
  Future_result (future self) = inl e ->
  isinstance e TimeoutError = true ->
  RPCRunnerFuture_result Future_result format_float self =
    inr (mkRunnerResult None
           (Some ("RPCRunner: Timeout, killed after "
                  +:+ format_float (timeout_sec self) +:+ " seconds"))).
Proof.
  intros Hf Ht. unfold RPCRunnerFuture_result. now rewrite Hf, Ht.
Qed.

Lemma result_exception (self : RPCRunnerFuture) (e : exn) :
  Future_result (future self) = inl e ->
  isinstance e TimeoutError = false ->
  isinstance e Exception = true ->
  RPCRunnerFuture_result Future_result format_float self =
    inr (mkRunnerResult None
           (Some ("RPCRunner: An exception occurred" +:+ newline
                  +:+ exc_str e))).
Proof.
  intros Hf Ht He. unfold RPCRunnerFuture_result.
  now rewrite Hf, Ht, He.
Qed.

Lemma result_escapes (self : RPCRunnerFuture) (e : exn) :
  Future_result (future self) = inl e ->
  isinstance e Exception = false ->
  RPCRunnerFuture_result Future_result format_float self = inl e.
Proof.
  intros Hf He. unfold RPCRunnerFuture_result. rewrite Hf.
  destruct (isinstance e TimeoutError) eqn:Ht.
  - apply TimeoutError_is_Exception in Ht. congruence.
  - now rewrite He.
Qed.

(** C2 (as amended): whenever the underlying future returns, or raises an
    instance of [Exception], [result()] returns a [RunnerResult] and does
    not raise: [RunnerResult(run_secs, None)] on success, an error message
    that names the timeout for a [TimeoutError], and one that carries
    [str(exception)] for any other [Exception]. *)
Theorem C2_result_returns_on_Exception (self : RPCRunnerFuture) :
  (forall e, Future_result (future self) = inl e ->
             isinstance e Exception = true) ->
  exists r : RunnerResult,
    RPCRunnerFuture_result Future_result format_float self = inr r /\
    match Future_result (future self) with
    | inr secs => r = mkRunnerResult (Some secs) None
    | inl e =>
        r = mkRunnerResult None
              (Some (if isinstance e TimeoutError
                     then "RPCRunner: Timeout, killed after "
                          +:+ format_float (timeout_sec self) +:+ " seconds"
                     else "RPCRunner: An exception occurred" +:+ newline
                          +:+ exc_str e))
    end.
Proof.
  intros Hexc.
  destruct (Future_result (future self)) as [e | secs] eqn:Hf.
  - specialize (Hexc e eq_refl).
    destruct (isinstance e TimeoutError) eqn:Ht; eexists; split; eauto.
    + now apply result_timeout with e.
    + now apply result_exception.
  - eexists; split; eauto. now apply result_success.
Qed.

(** C8: a [RunnerResult] that [result()] returns has exactly one of its
    two fields populated: on success [run_secs] is the list of timings and
    [error_msg] is [None]; on a failure [run_secs] is [None] and
    [error_msg] is a non-empty message. *)
Theorem C8_result_exactly_one_field (self : RPCRunnerFuture)
    (r : RunnerResult) :
  RPCRunnerFuture_result Future_result format_float self = inr r ->
  (exists secs, Future_result (future self) = inr secs /\
                run_secs r = Some secs /\ error_msg r = None)
  \/
  (exists e msg, Future_result (future self) = inl e /\
                 run_secs r = None /\ error_msg r = Some msg /\
                 msg <> EmptyString).
Proof.
  unfold RPCRunnerFuture_result.
  destruct (Future_result (future self)) as [e | secs] eqn:Hf.
  - intros Hr. right. exists e.
    destruct (isinstance e TimeoutError).
    + injection Hr as <-. eexists. repeat split; eauto; apply append_nonempty.
    + destruct (isinstance e Exception); [| discriminate].
      injection Hr as <-. eexists. repeat split; eauto; apply append_nonempty.
  - intros Hr. injection Hr as <-. left. exists secs. auto.
Qed.

End FutureFacts.

(** Witness of C2: a task killed by the pool's timeout. *)
Lemma C2_witness :
  exists r : RunnerResult,
    RPCRunnerFuture_result (fun _ => inl (mkExn TimeoutError EmptyString))
      stub_format_float (mkRPCRunnerFuture (mkFuture 0) 10%float) = inr r /\
    r = mkRunnerResult None
          (Some "RPCRunner: Timeout, killed after 10.0 seconds").
Proof.
  destruct (C2_result_returns_on_Exception
              (fun _ => inl (mkExn TimeoutError EmptyString))
              stub_format_float (mkRPCRunnerFuture (mkFuture 0) 10%float))
    as [r [Hr Hm]].
  - intros e He. injection He as <-. reflexivity.
  - exists r. split; [exact Hr | exact Hm].
Defined.

(** C2, counterexample: an exception outside the [Exception] hierarchy, such
    as the [KeyboardInterrupt] that interrupts the wait, is matched by
    neither [except] clause and leaves [result()]. *)
Lemma C2_counterexample :
  RPCRunnerFuture_result
    (fun _ => inl (mkExn KeyboardInterrupt EmptyString))
    stub_format_float (mkRPCRunnerFuture (mkFuture 0) 10%float)
  = inl (mkExn KeyboardInterrupt EmptyString).
Proof. reflexivity. Qed.

(** Witness of C8: a successful task and its three timings. *)
Lemma C8_witness :
  (exists secs,
     (inr [0.5%float; 0.5%float; 0.5%float] : Result (list float)) = inr secs /\
     Some [0.5%float; 0.5%float; 0.5%float] = Some secs /\
     @None string = None)
  \/
  (exists (e : exn) (msg : string),
     (inr [0.5%float; 0.5%float; 0.5%float] : Result (list float)) = inl e /\
     Some [0.5%float; 0.5%float; 0.5%float] = None /\
     @None string = Some msg /\ msg <> EmptyString).
Proof.
  exact (C8_result_exactly_one_field
           (fun _ => inr [0.5%float; 0.5%float; 0.5%float]) stub_format_float
           (mkRPCRunnerFuture (mkFuture 0) 10%float)
           (mkRunnerResult (Some [0.5%float; 0.5%float; 0.5%float]) None)
           eq_refl).
Defined.

(** ** The constructor, the sanity check and [run] *)

Section RunnerFacts.

Context `{Remote}.
Variable startup_registry : gmap string PackedFunc.

Lemma resolve_error_class {F : Type} (registry : gmap string PackedFunc)
    (view : PackedFunc -> F) (name : option (NameOrCallable F))
    (default : F) (e : exn) :
  get_global_func_with_default_on_worker registry view name default = inl e ->
  exc_class e = ResolutionError.
Proof.
  unfold get_global_func_with_default_on_worker.
  destruct name as [[n | f] |]; try discriminate.
  destruct (registry !! n); [discriminate |].
  intros He. injection He as <-. reflexivity.
Qed.

(** Whatever [_check] raises is a resolution error. *)
Lemma _check_error_class (registry : gmap string PackedFunc)
    f1 f2 f3 f4 f5 (e : exn) :
  _check registry f1 f2 f3 f4 f5 = inl e -> exc_class e = ResolutionError.
Proof.
  unfold _check.
  repeat match goal with
  | |- context [get_global_func_with_default_on_worker ?r ?v ?n ?d] =>
      let Hq := fresh "Hq" in
      destruct (get_global_func_with_default_on_worker r v n d) eqn:Hq;
      [ intros He; injection He as <-;
        exact (resolve_error_class _ _ _ _ _ Hq) |]
  end.
  discriminate.
Qed.

(** [_check] raises as soon as one override is an unregistered name. *)
Lemma _check_unregistered (registry : gmap string PackedFunc)
    f1 f2 f3 f4 f5 (n : string) :
  registry !! n = None ->
  f1 = Some (Name n) \/ f2 = Some (Name n) \/ f3 = Some (Name n) \/
  f4 = Some (Name n) \/ f5 = Some (Name n) ->
  exists e, _check registry f1 f2 f3 f4 f5 = inl e /\
            exc_class e = ResolutionError.
Proof.
  intros Hn Hname.
  destruct (_check registry f1 f2 f3 f4 f5) as [e | []] eqn:Hc.
  - exists e. split; [reflexivity |]. eapply _check_error_class; eauto.
  - exfalso. unfold _check in Hc.
    repeat match type of Hc with
    | context [get_global_func_with_default_on_worker ?r ?v ?nm ?d] =>
        let Hq := fresh "Hq" in
        destruct (get_global_func_with_default_on_worker r v nm d) eqn:Hq;
        [discriminate |]
    end.
    destruct Hname as [-> | [-> | [-> | [-> | ->]]]];
      simpl in *; rewrite Hn in *; discriminate.
Qed.

(** With a config passed in, the constructor reaches the sanity check,
    and an override naming a function that the worker process does not
    have makes it raise the resolution error.  Only the worker's registry
    is consulted. *)
Lemma init_unregistered_name (config : RPCConfig)
    evaluator_config cooldown_sec alloc_repeat f1 f2 f3 f4 f5
    max_workers initializer (n : string) :
  worker_registry startup_registry
    (mkPopenPoolExecutor max_workers (session_timeout_sec config)
       initializer []) !! n = None ->
  f1 = Some (Name n) \/ f2 = Some (Name n) \/ f3 = Some (Name n) \/
  f4 = Some (Name n) \/ f5 = Some (Name n) ->
  exists e,
    RPCRunner__init__ startup_registry (Some config) evaluator_config
      cooldown_sec alloc_repeat f1 f2 f3 f4 f5 max_workers initializer
    = inl e /\ exc_class e = ResolutionError.
Proof.
  intros Hn Hname.
  destruct (_check_unregistered _ f1 f2 f3 f4 f5 n Hn Hname) as [e [Hc He]].
  exists e. split; [| exact He].
  unfold RPCRunner__init__, _sanity_check. simpl.
  unfold worker_registry in *. simpl in *. now rewrite Hc.
Qed.

(** C10: with [rpc_config] left at its default [None] the constructor
    raises [AttributeError]: the pool's timeout is read off the raw
    argument, whatever the other arguments are. *)
Theorem C10_init_without_rpc_config evaluator_config cooldown_sec
    alloc_repeat f1 f2 f3 f4 f5 max_workers initializer :
  RPCRunner__init__ startup_registry None evaluator_config cooldown_sec
    alloc_repeat f1 f2 f3 f4 f5 max_workers initializer
  = inl (mkExn AttributeError
           "'NoneType' object has no attribute 'session_timeout_sec'").
Proof. reflexivity. Qed.

(** C4, at the failing input [RPCRunner(f_alloc_argument="does_not_exist")]:
    with [rpc_config] omitted the constructor does raise, but what it
    raises is the [AttributeError] of the timeout lookup, not a resolution
    error, and no check has been submitted to the pool. *)
Theorem C4_unregistered_name_without_rpc_config evaluator_config
    cooldown_sec alloc_repeat max_workers initializer :
  exists e,
    RPCRunner__init__ startup_registry None evaluator_config cooldown_sec
      alloc_repeat None None (Some (Name "does_not_exist")) None None
      max_workers initializer = inl e /\
    exc_class e = AttributeError /\
    isinstance e ResolutionError = false.
Proof. eexists. split; [reflexivity |]. split; reflexivity. Qed.

Lemma run_loop_closed (runner_inputs : list RunnerInput) :
  forall (self : RPCRunner) (results : list RPCRunnerFuture),
    run_loop self runner_inputs results =
      (results ++ futures_from (session_timeout_sec (rpc_config self))
                    (length (submitted (pool self))) (length runner_inputs),
       with_pool self
         (mkPopenPoolExecutor (max_workers (pool self)) (timeout (pool self))
            (initializer (pool self))
            (submitted (pool self) ++ map (worker_task self) runner_inputs))).
Proof.
  induction runner_inputs as [| x rest IH]; intros self results.
  - simpl. unfold futures_from. simpl. rewrite !app_nil_r.
    destruct self as [? ? ? ? ? ? ? ? ? []]. reflexivity.
  - simpl. rewrite IH. simpl. unfold futures_from. simpl.
    rewrite length_app. simpl. rewrite <- !app_assoc. simpl.
    replace (length (submitted (pool self)) + 1)%nat
      with (S (length (submitted (pool self)))) by lia.
    reflexivity.
Qed.

Lemma run_closed (self : RPCRunner) (runner_inputs : list RunnerInput) :
  run self runner_inputs =
    (futures_from (session_timeout_sec (rpc_config self))
       (length (submitted (pool self))) (length runner_inputs),
     with_pool self
       (mkPopenPoolExecutor (max_workers (pool self)) (timeout (pool self))
          (initializer (pool self))
          (submitted (pool self) ++ map (worker_task self) runner_inputs))).
Proof. unfold run. now rewrite run_loop_closed. Qed.

Lemma futures_match (self : RPCRunner) (t : float) (prefix : list Task)
    (runner_inputs : list RunnerInput) :
  forall (done : list Task),
    Forall2
      (fun runner_input fut =>
         (prefix ++ done ++ map (worker_task self) runner_inputs)
           !! future_id (future fut) = Some (worker_task self runner_input)
         /\ timeout_sec fut = t)
      runner_inputs
      (futures_from t (length (prefix ++ done)) (length runner_inputs)).
Proof.
  induction runner_inputs as [| x rest IH]; intros done.
  - constructor.
  - simpl. constructor.
    + split; [| reflexivity]. simpl.
      rewrite app_assoc. rewrite lookup_app_r by lia.
      now rewrite Nat.sub_diag.
    + specialize (IH (done ++ [worker_task self x])).
      rewrite <- !app_assoc in IH. simpl in IH.
      rewrite !length_app in IH. simpl in IH.
      rewrite length_app.
      replace (S (length prefix + length done))
        with (length prefix + (length done + 1))%nat by lia.
      exact IH.
Qed.

(** C7: [run] returns one future per input, in the order of the inputs:
    the two lists match position by position, and the future at a
    position is the handle of the pool's task built from the input at
    that position, with the timeout of the runner's config. *)
Theorem C7_run_preserves_order (self : RPCRunner)
    (runner_inputs : list RunnerInput) :
  length (fst (run self runner_inputs)) = length runner_inputs /\
  Forall2
    (fun runner_input fut =>
       submitted (pool (snd (run self runner_inputs)))
         !! future_id (future fut) = Some (worker_task self runner_input)
       /\ timeout_sec fut = session_timeout_sec (rpc_config self))
    runner_inputs (fst (run self runner_inputs)).
Proof.
  rewrite run_closed. simpl. split.
  - unfold futures_from. now rewrite length_map, length_seq.
  - pose proof (futures_match self (session_timeout_sec (rpc_config self))
                  (submitted (pool self)) runner_inputs []) as Hm.
    simpl in Hm. rewrite app_nil_r in Hm. exact Hm.
Qed.

(** C9: [cooldown_sec] is stored and never read.  Two constructions that
    differ only in it fail with the same exception or give runners that
    differ only in the stored field; and [run] on two such runners returns
    the same futures and leaves the same tasks, with the same arguments,
    in the pool. *)
Theorem C9_cooldown_sec_inert rpc_config evaluator_config
    (cooldown1 cooldown2 : float) alloc_repeat f1 f2 f3 f4 f5 max_workers
    initializer :
  RPCRunner__init__ startup_registry rpc_config evaluator_config cooldown2
    alloc_repeat f1 f2 f3 f4 f5 max_workers initializer
  = match RPCRunner__init__ startup_registry rpc_config evaluator_config
            cooldown1 alloc_repeat f1 f2 f3 f4 f5 max_workers initializer
    with
    | inl e => inl e
    | inr self => inr (with_cooldown_sec self cooldown2)
    end
  /\
  forall (self : RPCRunner) (runner_inputs : list RunnerInput),
    run (with_cooldown_sec self cooldown2) runner_inputs
    = (fst (run self runner_inputs),
       with_cooldown_sec (snd (run self runner_inputs)) cooldown2).
Proof.
  split.
  - unfold RPCRunner__init__.
    destruct (getattr_session_timeout_sec rpc_config) as [e | t];
      [reflexivity |].
    unfold _sanity_check. simpl.
    match goal with
    | |- context [_check ?r ?a ?b ?c ?d ?e] =>
        destruct (_check r a b c d e)
    end; reflexivity.
  - intros self runner_inputs. rewrite !run_closed. reflexivity.
Qed.

End RunnerFacts.

(** ** The worker task and its cleanup *)

Section WorkerFacts.

Context `{Remote}.

Lemma cleanup_count_app (l1 l2 : list Call) :
  cleanup_count (l1 ++ l2) = (cleanup_count l1 + cleanup_count l2)%nat.
Proof. unfold cleanup_count. now rewrite List.filter_app, length_app. Qed.

(** Steps 1 to 4 extend the record of calls, and by no cleanup call. *)
Lemma _worker_steps_calls (fs : Lifecycle) rpc_config evaluator_config
    alloc_repeat artifact_path device_type args_info (fr : Frame) :
  exists l,
    calls (snd (_worker_steps fs rpc_config evaluator_config alloc_repeat
                  artifact_path device_type args_info fr))
    = calls fr ++ l /\ cleanup_count l = 0%nat.
Proof.
  unfold _worker_steps, body_bind, body_ret, invoke, remote, set_session,
    set_remote_path.
  repeat match goal with
  | |- context [let '(_, _) := ?f ?w in _] =>
      destruct (f w) as [[? | ?] ?]
  end; simpl; rewrite <- ?app_assoc; eexists; split;
    try reflexivity; try (symmetry; apply app_nil_r); reflexivity.
Qed.

(** The scoped handler runs the cleanup once, last, whatever the body
    did, on the locals the body left. *)
Lemma resource_handler_calls {A : Type} (cleanup : T_CLEANUP)
    (body : Body A) (fr : Frame) :
  calls (snd (resource_handler cleanup body fr))
  = calls (snd (body fr))
    ++ [CallCleanup (session (snd (body fr))) (remote_path (snd (body fr)))]
  /\ session (snd (resource_handler cleanup body fr)) = session (snd (body fr))
  /\ remote_path (snd (resource_handler cleanup body fr))
     = remote_path (snd (body fr)).
Proof.
  unfold resource_handler, invoke.
  destruct (body fr) as [outcome fr1]. simpl.
  destruct (cleanup (session fr1) (remote_path fr1) (world fr1))
    as [[e | u] w']; simpl; auto.
Qed.

(** What leaves the handler: the cleanup's exception when it raises, the
    body's outcome when it returns. *)
Lemma resource_handler_outcome {A : Type} (cleanup : T_CLEANUP)
    (body : Body A) (fr : Frame) :
  fst (resource_handler cleanup body fr)
  = match cleanup (session (snd (body fr))) (remote_path (snd (body fr)))
            (world (snd (body fr))) with
    | (inl e, _) => inl e
    | (inr _, _) => fst (body fr)
    end.
Proof.
  unfold resource_handler, invoke.
  destruct (body fr) as [outcome fr1]. simpl.
  destruct (cleanup (session fr1) (remote_path fr1) (world fr1))
    as [[e | u] w']; reflexivity.
Qed.

Lemma default_cleanup_noop (session : option RPCSession)
    (remote_path : option string) (w : World) :
  session = None \/ remote_path = None ->
  default_cleanup session remote_path w = (inr tt, w).
Proof.
  intros [-> | ->]; [reflexivity |]. now destruct session.
Qed.

(** In every execution of [_worker_func] whose Step 0 resolves the five
    functions, the cleanup function is called exactly once, as the last
    lifecycle call and on the managed locals as the steps left them,
    whether the steps returned or one of them raised. *)
Lemma cleanup_last_when_resolved (registry : gmap string PackedFunc)
    o1 o2 o3 o4 o5 rpc_config evaluator_config alloc_repeat artifact_path
    device_type args_info (w : World) (fs : Lifecycle) :
  _worker_resolve registry o1 o2 o3 o4 o5 = inr fs ->
  let final :=
    snd (_worker_func registry o1 o2 o3 o4 o5 rpc_config evaluator_config
           alloc_repeat artifact_path device_type args_info w) in
  cleanup_count (calls final) = 1%nat /\
  (exists before,
     calls final
     = before ++ [CallCleanup (session final) (remote_path final)]).
Proof.
  intros Hres final. subst final. unfold _worker_func. rewrite Hres.
  set (steps := _worker_steps fs rpc_config evaluator_config alloc_repeat
                  artifact_path device_type args_info).
  set (frame := mkFrame w [] None None).
  destruct (resource_handler_calls (resolved_cleanup fs) steps frame)
    as [Hcalls [Hs Hp]].
  destruct (_worker_steps_calls fs rpc_config evaluator_config alloc_repeat
              artifact_path device_type args_info frame) as [l [Hl Hz]].
  fold steps in Hl. split.
  - rewrite Hcalls, Hl, !cleanup_count_app, Hz. reflexivity.
  - exists (calls (snd (steps frame))). now rewrite Hcalls, Hs, Hp.
Qed.

(** A task whose Step 0 raises leaves before the [with] block: it raises
    the resolution error, makes no lifecycle call, and the world is as it
    was. *)
Lemma worker_resolve_raises_no_calls (registry : gmap string PackedFunc)
    o1 o2 o3 o4 o5 rpc_config evaluator_config alloc_repeat artifact_path
    device_type args_info (w : World) (e : exn) :
  _worker_resolve registry o1 o2 o3 o4 o5 = inl e ->
  _worker_func registry o1 o2 o3 o4 o5 rpc_config evaluator_config
    alloc_repeat artifact_path device_type args_info w
  = (inl e, mkFrame w [] None None).
Proof. intros Hres. unfold _worker_func. now rewrite Hres. Qed.

(** C3 (as amended): when the cleanup function raises, its exception is
    what leaves the task, both after a failed step, whose error it
    replaces, and after four successful steps; the outcome of the steps
    leaves the task only when the cleanup returns. *)
Theorem C3_cleanup_exception_propagates (registry : gmap string PackedFunc)
    o1 o2 o3 o4 o5 rpc_config evaluator_config alloc_repeat artifact_path
    device_type args_info (w : World) (fs : Lifecycle) :
  _worker_resolve registry o1 o2 o3 o4 o5 = inr fs ->
  let steps :=
    _worker_steps fs rpc_config evaluator_config alloc_repeat artifact_path
      device_type args_info (mkFrame w [] None None) in
  let task :=
    _worker_func registry o1 o2 o3 o4 o5 rpc_config evaluator_config
      alloc_repeat artifact_path device_type args_info w in
  (forall e w',
     resolved_cleanup fs (session (snd steps)) (remote_path (snd steps))
       (world (snd steps)) = (inl e, w') ->
     fst task = inl e) /\
  (forall u w',
     resolved_cleanup fs (session (snd steps)) (remote_path (snd steps))
       (world (snd steps)) = (inr u, w') ->
     fst task = fst steps).
Proof.
  intros Hres steps task. subst steps task. unfold _worker_func.
  rewrite Hres. rewrite resource_handler_outcome.
  split; intros x w' Hc; now rewrite Hc.
Qed.

End WorkerFacts.

(** Witness of C3: every step succeeds and the cleanup raises. *)
Lemma C3_witness :
  fst (@_worker_func stub_remote ∅ None None None None
         (Some (Callable failing_cleanup)) stub_rpc_config
         stub_evaluator_config 2 "/tmp/mm.so" "cpu" [stub_tensor] [])
  = inl (mkExn OSError "remove failed").
Proof.
  eapply (C3_cleanup_exception_propagates (H := stub_remote) ∅
            None None None None (Some (Callable failing_cleanup))).
  - reflexivity.
  - reflexivity.
Defined.

(** C3, counterexample: session creation fails with a [RuntimeError] and
    the cleanup then fails with an [OSError]; the task raises the
    [OSError].  And when all four steps succeed and only the cleanup fails,
    the task raises as well instead of returning its timings. *)
Lemma C3_counterexample :
  fst (@_worker_func stub_remote ∅
         (Some (Callable failing_create_session)) None None None
         (Some (Callable failing_cleanup)) stub_rpc_config
         stub_evaluator_config 2 "/tmp/mm.so" "cpu" [stub_tensor] [])
  = inl (mkExn OSError "remove failed")
  /\
  fst (@_worker_steps stub_remote
         (mkLifecycle failing_create_session default_upload_module
            default_alloc_argument default_run_evaluator failing_cleanup)
         stub_rpc_config stub_evaluator_config 2 "/tmp/mm.so" "cpu"
         [stub_tensor] (@mkFrame stub_remote [] [] None None))
  = inl (mkExn RuntimeError "connection refused")
  /\
  (exists costs,
     fst (@_worker_func stub_remote ∅ None None None None None
            stub_rpc_config stub_evaluator_config 2 "/tmp/mm.so" "cpu"
            [stub_tensor] []) = inr costs)
  /\
  fst (@_worker_func stub_remote ∅ None None None None
         (Some (Callable failing_cleanup)) stub_rpc_config
         stub_evaluator_config 2 "/tmp/mm.so" "cpu" [stub_tensor] [])
  = inl (mkExn OSError "remove failed").
Proof.
  split; [reflexivity |]. split; [reflexivity |]. split; [| reflexivity].
  eexists. reflexivity.
Qed.

(** ** Argument allocation *)

Section AllocFacts.

Context `{Remote}.



Lemma alloc_repeats_length (f_random_fill : RemoteFunc) (device : Device)
    (args_info : T_ARG_INFO_JSON_OBJ_LIST) (n : nat) :
  forall repeated_args w l w',
    alloc_repeats f_random_fill device args_info n repeated_args w
    = (inr l, w') ->
    length l = (length repeated_args + n)%nat.
Proof.
  induction n as [| n IH]; intros repeated_args w l w'; simpl.
  - unfold op_ret. intros Hr. injection Hr as <- _. lia.
  - unfold op_bind.
    destruct (alloc_args f_random_fill device args_info [] w)
      as [[e | args] w1]; [discriminate |].
    intros Hr. apply IH in Hr. rewrite length_app in Hr. simpl in Hr. lia.
Qed.


End AllocFacts.



(** ** Timing results *)

Section EvaluatorFacts.

Context `{Remote}.

Lemma run_each_Timed (evaluator : Evaluator) (device : Device)
    (repeated_args : list T_ARGUMENT_LIST) :
  forall repeated_costs w l w',
    run_each evaluator device repeated_args repeated_costs w = (inr l, w') ->
    exists samples,
      l = repeated_costs ++ samples /\
      Timed evaluator device w repeated_args samples w'.
Proof.
  induction repeated_args as [| args rest IH];
    intros repeated_costs w l w'; simpl.
  - unfold op_ret. intros Hr. injection Hr as <- <-.
    exists []. split; [now rewrite app_nil_r | constructor].
  - unfold op_bind.
    destruct (device_sync device w) as [[e | u] w1] eqn:Hs;
      [discriminate |].
    destruct (Evaluator_call evaluator args w1) as [[e | pr] w2] eqn:Hc;
      [discriminate |].
    intros Hr. apply IH in Hr as [samples [-> Ht]].
    exists (results pr :: samples). split.
    + now rewrite <- app_assoc.
    + econstructor; eauto.
Qed.

Lemma Timed_length (evaluator : Evaluator) (device : Device) w
    repeated_args samples w' :
  Timed evaluator device w repeated_args samples w' ->
  length samples = length repeated_args.
Proof. induction 1; simpl; congruence. Qed.

Lemma Timed_samples (K : Z) (evaluator : Evaluator) (device : Device)
    w repeated_args samples w' :
  (forall args w2 profile_result w3,
     Evaluator_call evaluator args w2 = (inr profile_result, w3) ->
     Z.of_nat (length (results profile_result)) = K /\
     Forall nonneg (results profile_result)) ->
  Timed evaluator device w repeated_args samples w' ->
  Forall (fun l => Z.of_nat (length l) = K /\ Forall nonneg l) samples.
Proof.
  intros HK. induction 1; constructor; eauto.
Qed.

Lemma concat_samples (K : Z) (samples : list (list float)) :
  Forall (fun l => Z.of_nat (length l) = K /\ Forall nonneg l) samples ->
  Z.of_nat (length (concat samples)) = Z.of_nat (length samples) * K /\
  Forall nonneg (concat samples).
Proof.
  induction 1 as [| l samples [Hl Hn] _ [IHl IHn]]; simpl.
  - split; [reflexivity | constructor].
  - split.
    + rewrite length_app. lia.
    + apply Forall_app. split; assumption.
Qed.

Lemma map_Python_float (l : list float) : map Python_float l = l.
Proof. induction l; simpl; [| unfold Python_float at 1]; congruence. Qed.

(** What [default_run_evaluator] returns is the concatenation, in order,
    of the sample lists of its invocations. *)
Lemma default_run_evaluator_flattens (session : RPCSession)
    (rt_mod : RuntimeModule) (device : Device)
    (evaluator_config : EvaluatorConfig)
    (repeated_args : list T_ARGUMENT_LIST) w costs w' :
  default_run_evaluator session rt_mod device evaluator_config
    repeated_args w = (inr costs, w') ->
  exists evaluator w1 samples,
    time_evaluator rt_mod (entry_name rt_mod) device
      (number evaluator_config) (repeat evaluator_config)
      (min_repeat_ms evaluator_config)
      (if enable_cpu_cache_flush evaluator_config
       then "cache_flush_cpu_non_first_arg" else EmptyString) w
    = (inr evaluator, w1) /\
    Timed evaluator device w1 repeated_args samples w' /\
    costs = concat samples.
Proof.
  unfold default_run_evaluator, op_bind, op_ret.
  destruct (time_evaluator _ _ _ _ _ _ _ w) as [[e | evaluator] w1] eqn:Ht;
    [discriminate |].
  destruct (run_each evaluator device repeated_args [] w1)
    as [[e | l] w2] eqn:Hr; [discriminate |].
  intros Hc. injection Hc as <- <-.
  apply run_each_Timed in Hr as [samples [-> HT]].
  exists evaluator, w1, samples. simpl.
  now rewrite map_Python_float.
Qed.

Lemma default_alloc_argument_length (session : RPCSession)
    (device : Device) args_info (alloc_repeat : Z) w l w' :
  default_alloc_argument session device args_info alloc_repeat w
  = (inr l, w') ->
  length l = Z.to_nat alloc_repeat.
Proof.
  unfold default_alloc_argument, op_bind.
  destruct (get_global_func_on_rpc_session session _ _ w)
    as [[e | f] w0]; [discriminate |].
  intros Hr. now apply alloc_repeats_length in Hr.
Qed.

(** A task that returns went through the four steps, each returning, the
    world of one step handed on to the next, and made the five lifecycle
    calls in this order. *)
Lemma _worker_func_returns_inv (registry : gmap string PackedFunc)
    o1 o2 o3 o4 o5 rpc_config evaluator_config alloc_repeat artifact_path
    device_type args_info (w : World) (fs : Lifecycle)
    (costs : list float) (final : Frame) :
  _worker_resolve registry o1 o2 o3 o4 o5 = inr fs ->
  _worker_func registry o1 o2 o3 o4 o5 rpc_config evaluator_config
    alloc_repeat artifact_path device_type args_info w = (inr costs, final) ->
  exists s device rt_mod repeated_args w1 w2 w3 w4 w5,
    resolved_create_session fs rpc_config w = (inr s, w1) /\
    session_device s device_type 0 w1 = (inr device, w2) /\
    resolved_upload_module fs s artifact_path (osp_split_tail artifact_path)
      w2 = (inr rt_mod, w3) /\
    resolved_alloc_argument fs s device args_info alloc_repeat w3
    = (inr repeated_args, w4) /\
    resolved_run_evaluator fs s rt_mod device evaluator_config
      repeated_args w4 = (inr costs, w5) /\
    calls final =
      [CallCreateSession rpc_config;
       CallUploadModule s artifact_path (osp_split_tail artifact_path);
       CallAllocArgument s device args_info alloc_repeat;
       CallRunEvaluator s rt_mod device evaluator_config repeated_args;
       CallCleanup (Some s) (Some (osp_split_tail artifact_path))].
Proof.
  intros Hres. unfold _worker_func. rewrite Hres.
  unfold resource_handler, _worker_steps, body_bind, body_ret, invoke,
    remote, set_session, set_remote_path. simpl.
  destruct (resolved_create_session fs rpc_config w) as [[e | s] w1] eqn:Hc;
    simpl.
  { destruct (resolved_cleanup fs None None w1) as [[? | ?] ?]; discriminate. }
  destruct (session_device s device_type 0 w1) as [[e | device] w2] eqn:Hd;
    simpl.
  { destruct (resolved_cleanup fs (Some s) None w2) as [[? | ?] ?];
      discriminate. }
  destruct (resolved_upload_module fs s artifact_path
              (osp_split_tail artifact_path) w2) as [[e | rt_mod] w3] eqn:Hu;
    simpl.
  { destruct (resolved_cleanup fs (Some s)
                (Some (osp_split_tail artifact_path)) w3) as [[? | ?] ?];
      discriminate. }
  destruct (resolved_alloc_argument fs s device args_info alloc_repeat w3)
    as [[e | repeated_args] w4] eqn:Ha; simpl.
  { destruct (resolved_cleanup fs (Some s)
                (Some (osp_split_tail artifact_path)) w4) as [[? | ?] ?];
      discriminate. }
  destruct (resolved_run_evaluator fs s rt_mod device evaluator_config
              repeated_args w4) as [[e | costs'] w5] eqn:Hr; simpl.
  { destruct (resolved_cleanup fs (Some s)
                (Some (osp_split_tail artifact_path)) w5) as [[? | ?] ?];
      discriminate. }
  destruct (resolved_cleanup fs (Some s)
              (Some (osp_split_tail artifact_path)) w5) as [[? | ?] ?];
    [discriminate |].
  intros Ht. injection Ht as <- <-. simpl.
  exists s, device, rt_mod, repeated_args, w1, w2, w3, w4, w5.
  repeat split; auto.
Qed.

(** Position by position, a sample list is what the invocation on the
    argument list at that position returned. *)
Lemma Timed_Forall2 (evaluator : Evaluator) (device : Device) w
    repeated_args samples w' :
  Timed evaluator device w repeated_args samples w' ->
  Forall2
    (fun args l =>
       exists wa wb profile_result,
         Evaluator_call evaluator args wa = (inr profile_result, wb) /\
         l = results profile_result)
    repeated_args samples.
Proof. induction 1; constructor; eauto. Qed.

Lemma _worker_resolve_defaults (registry : gmap string PackedFunc)
    o1 o2 o5 (fs : Lifecycle) :
  _worker_resolve registry o1 o2 None None o5 = inr fs ->
  resolved_alloc_argument fs = default_alloc_argument /\
  resolved_run_evaluator fs = default_run_evaluator.
Proof.
  unfold _worker_resolve.
  repeat match goal with
  | |- context [get_global_func_with_default_on_worker ?r ?v ?n ?d] =>
      destruct (get_global_func_with_default_on_worker r v n d) eqn:?;
      try discriminate
  end.
  simpl in *. intros Hfs. injection Hfs as <-. simpl.
  split; congruence.
Qed.

(** C6: for a request run with [alloc_repeat = R], a count, and evaluator
    [repeat = K], with a timing harness that gives [K] samples, none
    negative, per invocation, a successful task (default allocation and
    default evaluator) returns the concatenation, in order, of the timing
    lists of its allocation repeats: the default allocation returns [R]
    argument lists, each is timed once, in order, the sample list at a
    position being what the invocation on the argument list at that
    position returned; the result has exactly [R * K] entries and none is
    negative. *)
Theorem C6_timings_R_times_K (registry : gmap string PackedFunc)
    o1 o2 o5 rpc_config evaluator_config (R : nat) artifact_path device_type
    args_info (w : World) (costs : list float) (final : Frame) :
  samples_per_invocation (repeat evaluator_config) ->
  _worker_func registry o1 o2 None None o5 rpc_config evaluator_config
    (Z.of_nat R) artifact_path device_type args_info w = (inr costs, final) ->
  exists fs s device rt_mod repeated_args evaluator samples
         w1 w2 w3 w4 w5 w6,
    _worker_resolve registry o1 o2 None None o5 = inr fs /\
    resolved_create_session fs rpc_config w = (inr s, w1) /\
    session_device s device_type 0 w1 = (inr device, w2) /\
    resolved_upload_module fs s artifact_path (osp_split_tail artifact_path)
      w2 = (inr rt_mod, w3) /\
    default_alloc_argument s device args_info (Z.of_nat R) w3
    = (inr repeated_args, w4) /\
    length repeated_args = R /\
    time_evaluator rt_mod (entry_name rt_mod) device
      (number evaluator_config) (repeat evaluator_config)
      (min_repeat_ms evaluator_config)
      (if enable_cpu_cache_flush evaluator_config
       then "cache_flush_cpu_non_first_arg" else EmptyString) w4
    = (inr evaluator, w5) /\
    Timed evaluator device w5 repeated_args samples w6 /\
    Forall2
      (fun args l =>
         exists wa wb profile_result,
           Evaluator_call evaluator args wa = (inr profile_result, wb) /\
           l = results profile_result)
      repeated_args samples /\
    costs = concat samples /\
    length samples = R /\
    Forall (fun l => Z.of_nat (length l) = repeat evaluator_config /\
                     Forall nonneg l) samples /\
    Z.of_nat (length costs) = Z.of_nat R * repeat evaluator_config /\
    Forall nonneg costs.
Proof.
  intros HK Htask.
  destruct (_worker_resolve registry o1 o2 None None o5) as [e | fs] eqn:Hres.
  { rewrite (worker_resolve_raises_no_calls _ _ _ _ _ _ _ _ _ _ _ _ _ _ Hres)
      in Htask. discriminate. }
  destruct (_worker_resolve_defaults _ _ _ _ _ Hres) as [Halloc Hrun].
  destruct (_worker_func_returns_inv _ _ _ _ _ _ _ _ _ _ _ _ _ _ _ _
              Hres Htask)
    as (s & device & rt_mod & repeated_args & w1 & w2 & w3 & w4 & w5
        & Hc & Hd & Hu & Ha & Hr & _).
  rewrite Halloc in Ha. rewrite Hrun in Hr.
  pose proof (default_alloc_argument_length _ _ _ _ _ _ _ Ha) as Hcount.
  rewrite Nat2Z.id in Hcount.
  apply default_run_evaluator_flattens in Hr
    as (evaluator & w6 & samples & Hev & HT & ->).
  pose proof (Timed_length _ _ _ _ _ _ HT) as Hlen.
  pose proof (Timed_samples _ _ _ _ _ _ _ (HK _ _ _ _ _ _ _ _ _ Hev) HT)
    as Hall.
  destruct (concat_samples _ _ Hall) as [Hsum Hnn].
  exists fs, s, device, rt_mod, repeated_args, evaluator, samples,
    w1, w2, w3, w4, w6, w5.
  repeat split; auto.
  - eapply Timed_Forall2; eauto.
  - congruence.
  - rewrite Hsum, Hlen, Hcount. reflexivity.
Qed.

End EvaluatorFacts.

Lemma stub_samples_per_invocation (K : Z) :
  0 <= K -> @samples_per_invocation stub_remote K.
Proof.
  intros HK. unfold samples_per_invocation. simpl.
  intros _ _ _ _ _ _ w evaluator w1 Hev args w2 pr w3 Hcall.
  injection Hev as <- _. injection Hcall as <- _. simpl. split.
  - rewrite length_replicate. now apply Z2Nat.id.
  - apply Forall_replicate. reflexivity.
Qed.

(** Witness of C6: the example of the spec, two allocation repeats and
    three samples per invocation. *)
Lemma C6_witness :
  Z.of_nat (length (replicate 6 0.5%float)) = Z.of_nat 2 * 3.
Proof.
  destruct (C6_timings_R_times_K (H := stub_remote) ∅ None None None
              stub_rpc_config stub_evaluator_config 2%nat "/tmp/mm.so" "cpu"
              [stub_tensor] [] (replicate 6 0.5%float)
              (snd (@_worker_func stub_remote ∅ None None None None None
                      stub_rpc_config stub_evaluator_config 2 "/tmp/mm.so"
                      "cpu" [stub_tensor] [])))
    as (fs & s & d & m & ra & ev & samples & w1 & w2 & w3 & w4 & w5 & w6
        & _ & _ & _ & _ & _ & _ & _ & _ & _ & _ & _ & _ & Hcount & _).
  - apply stub_samples_per_invocation. simpl. lia.
  - reflexivity.
  - exact Hcount.
Defined.

(* ===================================================================== *)
(** * Further properties *)
(* ===================================================================== *)

(** ** When [result()] raises *)

(** X1: [RPCRunnerFuture.result] raises exactly when the underlying future
    raised an exception that is not an instance of [Exception], and what it
    raises then is that very exception. *)
Theorem X1_result_raises_iff (Future_result : Future -> Result (list float))
    (format_float : float -> string) (self : RPCRunnerFuture) (e : exn) :
  RPCRunnerFuture_result Future_result format_float self = inl e <->
  Future_result (future self) = inl e /\ isinstance e Exception = false.
Proof.
  split.
  - unfold RPCRunnerFuture_result.
    destruct (Future_result (future self)) as [e0 | secs]; [| discriminate].
    destruct (isinstance e0 TimeoutError); [discriminate |].
    destruct (isinstance e0 Exception) eqn:He; [discriminate |].
    intros Hr. injection Hr as <-. auto.
  - intros [Hf He]. now apply result_escapes.
Qed.

(** ** The constructor and the sanity check *)

Section ConstructorFacts.

Context `{Remote}.
Variable startup_registry : gmap string PackedFunc.

Lemma resolve_optional_ok {F : Type} (registry : gmap string PackedFunc)
    (view : PackedFunc -> option F) (name : option (NameOrCallable F)) :
  (exists v,
     get_global_func_with_default_on_worker registry view (as_optional name)
       None = inr v)
  <-> resolvable registry name.
Proof.
  unfold resolvable. destruct name as [[n | f] |]; simpl.
  - destruct (registry !! n) as [func |]; split.
    + intros _. eauto.
    + intros _. eauto.
    + intros [v Hv]. discriminate.
    + intros [func Hfunc]. discriminate.
  - split; eauto.
  - split; eauto.
Qed.

Lemma resolve_ok {F : Type} (registry : gmap string PackedFunc)
    (view : PackedFunc -> F) (name : option (NameOrCallable F))
    (default : F) :
  (exists v,
     get_global_func_with_default_on_worker registry view name default
     = inr v)
  <-> resolvable registry name.
Proof.
  unfold resolvable. destruct name as [[n | f] |]; simpl.
  - destruct (registry !! n) as [func |]; split.
    + intros _. eauto.
    + intros _. eauto.
    + intros [v Hv]. discriminate.
    + intros [func Hfunc]. discriminate.
  - split; eauto.
  - split; eauto.
Qed.

(** The check passes exactly when all five overrides can be resolved. *)
Lemma _check_ok_iff (registry : gmap string PackedFunc) f1 f2 f3 f4 f5 :
  _check registry f1 f2 f3 f4 f5 = inr tt <->
  resolvable registry f1 /\ resolvable registry f2 /\
  resolvable registry f3 /\ resolvable registry f4 /\
  resolvable registry f5.
Proof.
  unfold _check. split.
  - intros Hc.
    repeat match type of Hc with
    | context [get_global_func_with_default_on_worker ?r ?v ?n ?d] =>
        let Hq := fresh "Hq" in
        destruct (get_global_func_with_default_on_worker r v n d) eqn:Hq;
        [discriminate |]
    end.
    repeat split; eapply resolve_optional_ok; eauto.
  - intros (H1 & H2 & H3 & H4 & H5).
    apply (resolve_optional_ok registry
             (fun func => Some (as_create_session func))) in H1 as [? ->].
    apply (resolve_optional_ok registry
             (fun func => Some (as_upload_module func))) in H2 as [? ->].
    apply (resolve_optional_ok registry
             (fun func => Some (as_alloc_argument func))) in H3 as [? ->].
    apply (resolve_optional_ok registry
             (fun func => Some (as_run_evaluator func))) in H4 as [? ->].
    apply (resolve_optional_ok registry
             (fun func => Some (as_cleanup func))) in H5 as [? ->].
    reflexivity.
Qed.

(** Step 0 of the worker succeeds exactly when all five can be resolved. *)
Lemma _worker_resolve_ok_iff (registry : gmap string PackedFunc)
    f1 f2 f3 f4 f5 :
  (exists fs, _worker_resolve registry f1 f2 f3 f4 f5 = inr fs) <->
  resolvable registry f1 /\ resolvable registry f2 /\
  resolvable registry f3 /\ resolvable registry f4 /\
  resolvable registry f5.
Proof.
  unfold _worker_resolve. split.
  - intros [fs Hc].
    repeat match type of Hc with
    | context [get_global_func_with_default_on_worker ?r ?v ?n ?d] =>
        let Hq := fresh "Hq" in
        destruct (get_global_func_with_default_on_worker r v n d) eqn:Hq;
        [discriminate |]
    end.
    repeat split; eapply resolve_ok; eauto.
  - intros (H1 & H2 & H3 & H4 & H5).
    apply (resolve_ok registry as_create_session f1 default_create_session)
      in H1 as [? ->].
    apply (resolve_ok registry as_upload_module f2 default_upload_module)
      in H2 as [? ->].
    apply (resolve_ok registry as_alloc_argument f3 default_alloc_argument)
      in H3 as [? ->].
    apply (resolve_ok registry as_run_evaluator f4 default_run_evaluator)
      in H4 as [? ->].
    apply (resolve_ok registry as_cleanup f5 default_cleanup)
      in H5 as [? ->].
    eauto.
Qed.

(** X2: the constructor returns a runner only if [rpc_config] is given and
    every override passed by name is registered in the worker process that
    ran the check; unset overrides and callables are not looked up. *)
Theorem X2_init_returns_only_if rpc_config evaluator_config cooldown_sec
    alloc_repeat f1 f2 f3 f4 f5 max_workers
    (initializer : option Initializer) (self : RPCRunner) :
  RPCRunner__init__ startup_registry rpc_config evaluator_config
    cooldown_sec alloc_repeat f1 f2 f3 f4 f5 max_workers initializer
  = inr self ->
  let registry :=
    match initializer with
    | None => startup_registry
    | Some init => init startup_registry
    end in
  (exists config, rpc_config = Some config) /\
  resolvable registry f1 /\ resolvable registry f2 /\
  resolvable registry f3 /\ resolvable registry f4 /\
  resolvable registry f5.
Proof.
  intros Hinit registry. revert Hinit.
  unfold RPCRunner__init__, _sanity_check.
  destruct rpc_config as [config |]; simpl; [| discriminate].
  change (worker_registry startup_registry _) with registry.
  destruct (_check registry f1 f2 f3 f4 f5) as [e | []] eqn:Hc;
    [discriminate |].
  intros _. split; [eauto |]. now apply _check_ok_iff.
Qed.

(** X3: a runner that the constructor returns holds the normalized
    [rpc_config] and evaluator config, the cooldown, the repeat count and
    the five overrides as they were passed, a pool whose timeout was read
    off the [rpc_config] argument itself, and in that pool exactly one
    task, the check of its own five overrides. *)
Theorem X3_init_result (given : option RPCConfig) evaluator_config cooldown_sec
    alloc_repeat f1 f2 f3 f4 f5 max_workers
    (initializer : option Initializer) (self : RPCRunner) :
  RPCRunner__init__ startup_registry given evaluator_config
    cooldown_sec alloc_repeat f1 f2 f3 f4 f5 max_workers initializer
  = inr self ->
  exists config,
    given = Some config /\
    self = mkRPCRunner (RPCConfig_normalized given)
             (EvaluatorConfig_normalized evaluator_config)
             cooldown_sec alloc_repeat f1 f2 f3 f4 f5
             (mkPopenPoolExecutor max_workers (session_timeout_sec config)
                initializer [Task_check f1 f2 f3 f4 f5]).
Proof.
  unfold RPCRunner__init__, _sanity_check.
  destruct given as [config |]; simpl; [| discriminate].
  match goal with
  | |- context [_check ?r ?a ?b ?c ?d ?e] =>
      destruct (_check r a b c d e) as [e0 | []]
  end; [discriminate |].
  intros Hs. injection Hs as <-. exists config. auto.
Qed.

(** X4: the sanity check and Step 0 of a worker task agree.  Against the
    same registry, one raises exactly when the other does, and then the
    same exception: a runner whose check passed submits only tasks whose
    resolution succeeds. *)
Theorem X4_check_agrees_with_worker_resolve
    (registry : gmap string PackedFunc) f1 f2 f3 f4 f5 (e : exn) :
  _check registry f1 f2 f3 f4 f5 = inl e <->
  _worker_resolve registry f1 f2 f3 f4 f5 = inl e.
Proof.
  unfold _check, _worker_resolve.
  destruct f1 as [[n1 | g1] |]; simpl;
    [destruct (registry !! n1); [| split; congruence] | |];
  (destruct f2 as [[n2 | g2] |]; simpl;
    [destruct (registry !! n2); [| split; congruence] | |]);
  (destruct f3 as [[n3 | g3] |]; simpl;
    [destruct (registry !! n3); [| split; congruence] | |]);
  (destruct f4 as [[n4 | g4] |]; simpl;
    [destruct (registry !! n4); [| split; congruence] | |]);
  (destruct f5 as [[n5 | g5] |]; simpl;
    [destruct (registry !! n5); [| split; congruence] | |]);
  split; discriminate.
Qed.

End ConstructorFacts.

(** ** Submitting requests *)

Section RunFacts.

Context `{Remote}.

Lemma futures_from_app (t : float) (first n m : nat) :
  futures_from t first (n + m)
  = futures_from t first n ++ futures_from t (first + n) m.
Proof. unfold futures_from. now rewrite seq_app, map_app. Qed.

Lemma future_ids_futures_from (t : float) (first n : nat) :
  future_ids (futures_from t first n) = seq first n.
Proof.
  unfold future_ids, futures_from. rewrite map_map. simpl. apply map_id.
Qed.

(** X5: [run] composes over concatenation: submitting one batch is the
    same as submitting its first part and then, on the runner that leaves,
    the rest; the futures come back in that order. *)
Theorem X5_run_app (self : RPCRunner) (first rest : list RunnerInput) :
  run self (first ++ rest)
  = (fst (run self first) ++ fst (run (snd (run self first)) rest),
     snd (run (snd (run self first)) rest)).
Proof.
  rewrite !run_closed. simpl.
  rewrite !length_app, !length_map, futures_from_app.
  rewrite map_app, <- app_assoc. reflexivity.
Qed.

(** X6: the futures that one [run] returns are handles of their own: no two
    of them share a handle, and none is the handle of a task that was in
    the pool before the call. *)
Theorem X6_run_fresh_handles (self : RPCRunner)
    (runner_inputs : list RunnerInput) :
  NoDup (future_ids (fst (run self runner_inputs))) /\
  Forall (fun id =>
            (length (submitted (pool self)) <= id
             < length (submitted (pool (snd (run self runner_inputs)))))%nat)
         (future_ids (fst (run self runner_inputs))).
Proof.
  rewrite run_closed. simpl. rewrite future_ids_futures_from. split.
  - apply NoDup_seq.
  - apply Forall_forall. intros id Hid. apply elem_of_seq in Hid.
    rewrite length_app, length_map. lia.
Qed.

(** X7: [run] changes nothing of the runner but the pool's task list, and
    that only by appending: the tasks already there keep their places, the
    new ones follow in input order, and configs, overrides, cooldown,
    repeat count and the pool's settings are as before. *)
Theorem X7_run_only_appends (self : RPCRunner)
    (runner_inputs : list RunnerInput) :
  let self' := snd (run self runner_inputs) in
  submitted (pool self')
  = submitted (pool self) ++ map (worker_task self) runner_inputs /\
  max_workers (pool self') = max_workers (pool self) /\
  timeout (pool self') = timeout (pool self) /\
  initializer (pool self') = initializer (pool self) /\
  self' = with_pool self (pool self').
Proof. simpl. rewrite run_closed. simpl. auto 10. Qed.

End RunFacts.

(** ** The lifecycle calls of a task, exit by exit *)

Section WorkerSequence.

Context `{Remote}.

Ltac enter_task Hres :=
  unfold _worker_func; rewrite Hres;
  unfold resource_handler, _worker_steps, body_bind, body_ret, invoke,
    remote, set_session, set_remote_path; simpl.

Ltac finish_task :=
  match goal with
  | |- context [resolved_cleanup ?fs ?s ?p ?w] =>
      destruct (resolved_cleanup fs s p w) as [[? | ?] ?]; simpl; auto
  end.

(** X8: a task that returns has called the five lifecycle functions once
    each, in the order create-session, upload, allocate, run, cleanup: each
    step returned and handed its world to the next, the session that
    create-session returned is the one of every later call, the module that
    the upload returned and the argument lists that the allocation returned
    are the ones handed to the evaluator, whose return is the task's, and
    the base name of the artifact is the remote path of both upload and
    cleanup. *)
Theorem X8_worker_success_calls (registry : gmap string PackedFunc)
    o1 o2 o3 o4 o5 rpc_config evaluator_config alloc_repeat artifact_path
    device_type args_info (w : World) (fs : Lifecycle)
    (costs : list float) (final : Frame) :
  _worker_resolve registry o1 o2 o3 o4 o5 = inr fs ->
  _worker_func registry o1 o2 o3 o4 o5 rpc_config evaluator_config
    alloc_repeat artifact_path device_type args_info w = (inr costs, final) ->
  exists s device rt_mod repeated_args w1 w2 w3 w4 w5,
    resolved_create_session fs rpc_config w = (inr s, w1) /\
    session_device s device_type 0 w1 = (inr device, w2) /\
    resolved_upload_module fs s artifact_path (osp_split_tail artifact_path)
      w2 = (inr rt_mod, w3) /\
    resolved_alloc_argument fs s device args_info alloc_repeat w3
    = (inr repeated_args, w4) /\
    resolved_run_evaluator fs s rt_mod device evaluator_config
      repeated_args w4 = (inr costs, w5) /\
    calls final =
      [CallCreateSession rpc_config;
       CallUploadModule s artifact_path (osp_split_tail artifact_path);
       CallAllocArgument s device args_info alloc_repeat;
       CallRunEvaluator s rt_mod device evaluator_config repeated_args;
       CallCleanup (Some s) (Some (osp_split_tail artifact_path))].
Proof.
  intros Hres Htask.
  destruct (_worker_func_returns_inv _ _ _ _ _ _ _ _ _ _ _ _ _ _ _ _
              Hres Htask)
    as (s & device & rt_mod & repeated_args & w1 & w2 & w3 & w4 & w5 & Hall).
  exists s, device, rt_mod, repeated_args, w1, w2, w3, w4, w5. exact Hall.
Qed.

(** X9: when create-session raises, no other step is called; the cleanup
    is called on [(None, None)], and the task raises what create-session
    raised unless the cleanup raises too. *)
Theorem X9_worker_create_session_raises (registry : gmap string PackedFunc)
    o1 o2 o3 o4 o5 rpc_config evaluator_config alloc_repeat artifact_path
    device_type args_info (w w1 : World) (fs : Lifecycle) (e : exn) :
  _worker_resolve registry o1 o2 o3 o4 o5 = inr fs ->
  resolved_create_session fs rpc_config w = (inl e, w1) ->
  let task :=
    _worker_func registry o1 o2 o3 o4 o5 rpc_config evaluator_config
      alloc_repeat artifact_path device_type args_info w in
  calls (snd task) = [CallCreateSession rpc_config; CallCleanup None None] /\
  fst task = match resolved_cleanup fs None None w1 with
             | (inl e', _) => inl e'
             | (inr _, _) => inl e
             end.
Proof.
  intros Hres Hc. enter_task Hres. rewrite Hc. simpl. finish_task.
Qed.

(** X10: when [session.device] raises, the session is set and the remote
    path is not: the cleanup is called on the session and [None], and
    upload, allocation and evaluation are not called. *)
Theorem X10_worker_device_raises (registry : gmap string PackedFunc)
    o1 o2 o3 o4 o5 rpc_config evaluator_config alloc_repeat artifact_path
    device_type args_info (w w1 w2 : World) (fs : Lifecycle)
    (s : RPCSession) (e : exn) :
  _worker_resolve registry o1 o2 o3 o4 o5 = inr fs ->
  resolved_create_session fs rpc_config w = (inr s, w1) ->
  session_device s device_type 0 w1 = (inl e, w2) ->
  let task :=
    _worker_func registry o1 o2 o3 o4 o5 rpc_config evaluator_config
      alloc_repeat artifact_path device_type args_info w in
  calls (snd task)
  = [CallCreateSession rpc_config; CallCleanup (Some s) None] /\
  fst task = match resolved_cleanup fs (Some s) None w2 with
             | (inl e', _) => inl e'
             | (inr _, _) => inl e
             end.
Proof.
  intros Hres Hc Hd. enter_task Hres. rewrite Hc. simpl. rewrite Hd. simpl.
  finish_task.
Qed.

(** X11: when the upload raises, allocation and evaluation are not called,
    and the cleanup is called on the session and the base name of the
    artifact: the remote path is set before the upload is tried. *)
Theorem X11_worker_upload_raises (registry : gmap string PackedFunc)
    o1 o2 o3 o4 o5 rpc_config evaluator_config alloc_repeat artifact_path
    device_type args_info (w w1 w2 w3 : World) (fs : Lifecycle)
    (s : RPCSession) (device : Device) (e : exn) :
  _worker_resolve registry o1 o2 o3 o4 o5 = inr fs ->
  resolved_create_session fs rpc_config w = (inr s, w1) ->
  session_device s device_type 0 w1 = (inr device, w2) ->
  resolved_upload_module fs s artifact_path (osp_split_tail artifact_path) w2
  = (inl e, w3) ->
  let task :=
    _worker_func registry o1 o2 o3 o4 o5 rpc_config evaluator_config
      alloc_repeat artifact_path device_type args_info w in
  calls (snd task)
  = [CallCreateSession rpc_config;
     CallUploadModule s artifact_path (osp_split_tail artifact_path);
     CallCleanup (Some s) (Some (osp_split_tail artifact_path))] /\
  fst task = match resolved_cleanup fs (Some s)
                     (Some (osp_split_tail artifact_path)) w3 with
             | (inl e', _) => inl e'
             | (inr _, _) => inl e
             end.
Proof.
  intros Hres Hc Hd Hu. enter_task Hres. rewrite Hc. simpl. rewrite Hd. simpl.
  rewrite Hu. simpl. finish_task.
Qed.

(** X12: when the allocation raises, the evaluator is not called; the
    cleanup follows the allocation call directly. *)
Theorem X12_worker_alloc_raises (registry : gmap string PackedFunc)
    o1 o2 o3 o4 o5 rpc_config evaluator_config alloc_repeat artifact_path
    device_type args_info (w w1 w2 w3 w4 : World) (fs : Lifecycle)
    (s : RPCSession) (device : Device) (rt_mod : RuntimeModule) (e : exn) :
  _worker_resolve registry o1 o2 o3 o4 o5 = inr fs ->
  resolved_create_session fs rpc_config w = (inr s, w1) ->
  session_device s device_type 0 w1 = (inr device, w2) ->
  resolved_upload_module fs s artifact_path (osp_split_tail artifact_path) w2
  = (inr rt_mod, w3) ->
  resolved_alloc_argument fs s device args_info alloc_repeat w3
  = (inl e, w4) ->
  let task :=
    _worker_func registry o1 o2 o3 o4 o5 rpc_config evaluator_config
      alloc_repeat artifact_path device_type args_info w in
  calls (snd task)
  = [CallCreateSession rpc_config;
     CallUploadModule s artifact_path (osp_split_tail artifact_path);
     CallAllocArgument s device args_info alloc_repeat;
     CallCleanup (Some s) (Some (osp_split_tail artifact_path))] /\
  fst task = match resolved_cleanup fs (Some s)
                     (Some (osp_split_tail artifact_path)) w4 with
             | (inl e', _) => inl e'
             | (inr _, _) => inl e
             end.
Proof.
  intros Hres Hc Hd Hu Ha. enter_task Hres. rewrite Hc. simpl.
  rewrite Hd. simpl. rewrite Hu. simpl. rewrite Ha. simpl. finish_task.
Qed.

(** X13: when the evaluator raises, after all four calls, the cleanup is
    still called on the session and the remote path, and no timing leaves
    the task. *)
Theorem X13_worker_run_evaluator_raises (registry : gmap string PackedFunc)
    o1 o2 o3 o4 o5 rpc_config evaluator_config alloc_repeat artifact_path
    device_type args_info (w w1 w2 w3 w4 w5 : World) (fs : Lifecycle)
    (s : RPCSession) (device : Device) (rt_mod : RuntimeModule)
    (repeated_args : list T_ARGUMENT_LIST) (e : exn) :
  _worker_resolve registry o1 o2 o3 o4 o5 = inr fs ->
  resolved_create_session fs rpc_config w = (inr s, w1) ->
  session_device s device_type 0 w1 = (inr device, w2) ->
  resolved_upload_module fs s artifact_path (osp_split_tail artifact_path) w2
  = (inr rt_mod, w3) ->
  resolved_alloc_argument fs s device args_info alloc_repeat w3
  = (inr repeated_args, w4) ->
  resolved_run_evaluator fs s rt_mod device evaluator_config repeated_args w4
  = (inl e, w5) ->
  let task :=
    _worker_func registry o1 o2 o3 o4 o5 rpc_config evaluator_config
      alloc_repeat artifact_path device_type args_info w in
  calls (snd task)
  = [CallCreateSession rpc_config;
     CallUploadModule s artifact_path (osp_split_tail artifact_path);
     CallAllocArgument s device args_info alloc_repeat;
     CallRunEvaluator s rt_mod device evaluator_config repeated_args;
     CallCleanup (Some s) (Some (osp_split_tail artifact_path))] /\
  (exists e', fst task = inl e').
Proof.
  intros Hres Hc Hd Hu Ha Hr. enter_task Hres. rewrite Hc. simpl.
  rewrite Hd. simpl. rewrite Hu. simpl. rewrite Ha. simpl. rewrite Hr. simpl.
  finish_task; eauto.
Qed.

Lemma _worker_resolve_default_cleanup (registry : gmap string PackedFunc)
    o1 o2 o3 o4 (fs : Lifecycle) :
  _worker_resolve registry o1 o2 o3 o4 None = inr fs ->
  resolved_cleanup fs = default_cleanup.
Proof.
  unfold _worker_resolve.
  repeat match goal with
  | |- context [get_global_func_with_default_on_worker ?r ?v ?n ?d] =>
      destruct (get_global_func_with_default_on_worker r v n d) eqn:?;
      try discriminate
  end.
  simpl in *. intros Hfs. injection Hfs as <-. simpl. congruence.
Qed.

(** X14: with the default cleanup, a task that fails before the remote
    path is set, in create-session or in [session.device], raises exactly
    that failure and leaves the world as the failing call left it: the
    cleanup removes nothing and does nothing to the session. *)
Theorem X14_default_cleanup_after_early_failure
    (registry : gmap string PackedFunc) o1 o2 o3 o4 rpc_config
    evaluator_config alloc_repeat artifact_path device_type args_info
    (w w1 : World) (fs : Lifecycle) (e : exn) :
  _worker_resolve registry o1 o2 o3 o4 None = inr fs ->
  (resolved_create_session fs rpc_config w = (inl e, w1) \/
   exists s w0,
     resolved_create_session fs rpc_config w = (inr s, w0) /\
     session_device s device_type 0 w0 = (inl e, w1)) ->
  let task :=
    _worker_func registry o1 o2 o3 o4 None rpc_config evaluator_config
      alloc_repeat artifact_path device_type args_info w in
  fst task = inl e /\ world (snd task) = w1.
Proof.
  intros Hres Hfail.
  pose proof (_worker_resolve_default_cleanup _ _ _ _ _ _ Hres) as Hdc.
  enter_task Hres. rewrite Hdc.
  destruct Hfail as [Hc | (s & w0 & Hc & Hd)].
  - rewrite Hc. simpl. auto.
  - rewrite Hc. simpl. rewrite Hd. simpl. auto.
Qed.

(** Once Step 0 has resolved, the cleanup is called once. *)
Lemma cleanup_once_resolved (registry : gmap string PackedFunc)
    o1 o2 o3 o4 o5 rpc_config evaluator_config alloc_repeat artifact_path
    device_type args_info (w : World) (fs : Lifecycle) :
  _worker_resolve registry o1 o2 o3 o4 o5 = inr fs ->
  cleanup_count
    (calls (snd (_worker_func registry o1 o2 o3 o4 o5 rpc_config
                   evaluator_config alloc_repeat artifact_path device_type
                   args_info w))) = 1%nat.
Proof.
  intros Hres. unfold _worker_func. rewrite Hres.
  set (steps := _worker_steps fs rpc_config evaluator_config alloc_repeat
                  artifact_path device_type args_info).
  set (frame := mkFrame w [] None None).
  destruct (resource_handler_calls (resolved_cleanup fs) steps frame)
    as [Hcalls _].
  destruct (_worker_steps_calls fs rpc_config evaluator_config alloc_repeat
              artifact_path device_type args_info frame) as [l [Hl Hz]].
  fold steps in Hl.
  rewrite Hcalls, Hl, !cleanup_count_app, Hz. reflexivity.
Qed.

End WorkerSequence.

(** ** From the constructor to the worker *)

Section EndToEnd.

Context `{Remote}.
Variable startup_registry : gmap string PackedFunc.

Lemma RPCRunner__init___inv given evaluator_config cooldown_sec
    alloc_repeat f1 f2 f3 f4 f5 max_workers
    (initializer : option Initializer) (self : RPCRunner) :
  RPCRunner__init__ startup_registry given evaluator_config cooldown_sec
    alloc_repeat f1 f2 f3 f4 f5 max_workers initializer = inr self ->
  exists config,
    self = mkRPCRunner config (EvaluatorConfig_normalized evaluator_config)
             cooldown_sec alloc_repeat f1 f2 f3 f4 f5
             (mkPopenPoolExecutor max_workers (session_timeout_sec config)
                initializer [Task_check f1 f2 f3 f4 f5]) /\
    _check (worker_registry startup_registry (pool self)) f1 f2 f3 f4 f5
    = inr tt.
Proof.
  unfold RPCRunner__init__, _sanity_check.
  destruct given as [config |]; simpl; [| discriminate].
  match goal with
  | |- context [_check ?r ?a ?b ?c ?d ?e] =>
      destruct (_check r a b c d e) as [e0 | []] eqn:Hc
  end; [discriminate |].
  intros Hs. injection Hs as <-. exists config. split; [reflexivity |].
  exact Hc.
Qed.

(** X15: every measurement task in the pool of a runner that the
    constructor returned, after any [run], gets past Step 0 when a worker
    of that pool executes it, and calls the cleanup exactly once: the
    construction-time check covers the tasks submitted later. *)
Theorem X15_constructed_runner_tasks_clean_up given evaluator_config
    cooldown_sec alloc_repeat f1 f2 f3 f4 f5 max_workers
    (initializer : option Initializer) (self : RPCRunner)
    (runner_inputs : list RunnerInput) (i : nat)
    a b c d e config' evaluator_config' alloc_repeat' artifact_path
    device_type args_info (w : World) :
  RPCRunner__init__ startup_registry given evaluator_config cooldown_sec
    alloc_repeat f1 f2 f3 f4 f5 max_workers initializer = inr self ->
  submitted (pool (snd (run self runner_inputs))) !! i
  = Some (Task_worker_func a b c d e config' evaluator_config' alloc_repeat'
            artifact_path device_type args_info) ->
  let registry :=
    worker_registry startup_registry (pool (snd (run self runner_inputs))) in
  (exists fs, _worker_resolve registry a b c d e = inr fs) /\
  cleanup_count
    (calls (snd (_worker_func registry a b c d e config' evaluator_config'
                   alloc_repeat' artifact_path device_type args_info w)))
  = 1%nat.
Proof.
  intros Hinit Hi registry.
  apply RPCRunner__init___inv in Hinit as (config & -> & Hcheck).
  rewrite run_closed in Hi. simpl in Hi.
  assert (registry
          = worker_registry startup_registry
              (mkPopenPoolExecutor max_workers (session_timeout_sec config)
                 initializer [Task_check f1 f2 f3 f4 f5])) as Hreg.
  { subst registry. rewrite run_closed. reflexivity. }
  simpl in Hcheck. rewrite <- Hreg in Hcheck.
  destruct i as [| i]; [discriminate |]. simpl in Hi.
  apply list_lookup_fmap_Some in Hi as (input & Htask & Hinput).
  unfold worker_task in Htask. simpl in Htask.
  injection Htask as -> -> -> -> -> -> -> -> -> -> ->.
  assert (exists fs, _worker_resolve registry f1 f2 f3 f4 f5 = inr fs)
    as [fs Hfs].
  { apply _worker_resolve_ok_iff. now apply _check_ok_iff. }
  split; [eauto |]. eapply cleanup_once_resolved; eauto.
Qed.

(** X24: for a runner that the constructor returned, the timeout carried by
    every future of [run], the one its error message names, is the timeout
    with which the pool kills a task. *)
Theorem X24_future_timeout_is_pool_timeout given evaluator_config
    cooldown_sec alloc_repeat f1 f2 f3 f4 f5 max_workers
    (initializer : option Initializer) (self : RPCRunner)
    (runner_inputs : list RunnerInput) :
  RPCRunner__init__ startup_registry given evaluator_config cooldown_sec
    alloc_repeat f1 f2 f3 f4 f5 max_workers initializer = inr self ->
  Forall (fun fut =>
            timeout_sec fut = timeout (pool (snd (run self runner_inputs))))
         (fst (run self runner_inputs)).
Proof.
  intros Hinit.
  apply RPCRunner__init___inv in Hinit as (config & -> & _).
  rewrite run_closed. simpl. unfold futures_from.
  apply Forall_forall. intros fut Hfut.
  apply list_elem_of_fmap in Hfut as (id & -> & _). reflexivity.
Qed.

(** The tasks that [run] leaves in the pool of a constructed runner
    resolve their five functions in a worker of that pool. *)
Lemma constructed_runner_tasks_resolve given evaluator_config
    cooldown_sec alloc_repeat f1 f2 f3 f4 f5 max_workers
    (initializer : option Initializer) (self : RPCRunner)
    (runner_inputs : list RunnerInput) (i : nat)
    a b c d e config' evaluator_config' alloc_repeat' artifact_path
    device_type args_info :
  RPCRunner__init__ startup_registry given evaluator_config cooldown_sec
    alloc_repeat f1 f2 f3 f4 f5 max_workers initializer = inr self ->
  submitted (pool (snd (run self runner_inputs))) !! i
  = Some (Task_worker_func a b c d e config' evaluator_config' alloc_repeat'
            artifact_path device_type args_info) ->
  exists fs,
    _worker_resolve
      (worker_registry startup_registry (pool (snd (run self runner_inputs))))
      a b c d e = inr fs.
Proof.
  intros Hinit Hi.
  apply RPCRunner__init___inv in Hinit as (config & -> & Hcheck).
  rewrite run_closed in Hi. simpl in Hi.
  rewrite run_closed. simpl in *.
  destruct i as [| i]; [discriminate |]. simpl in Hi.
  apply list_lookup_fmap_Some in Hi as (input & Htask & Hinput).
  unfold worker_task in Htask. simpl in Htask.
  injection Htask as -> -> -> -> -> -> -> -> -> -> ->.
  apply _worker_resolve_ok_iff. apply _check_ok_iff. exact Hcheck.
Qed.

(** C1: in every execution of a worker task, that is of a [_worker_func]
    task that a constructed runner submitted, run by a worker of its pool
    on any world and with any behaviour of the five lifecycle functions,
    the cleanup function is called exactly once: it is the last lifecycle
    call, on the managed locals as the steps left them, whether the steps
    returned or create-session, upload, allocation or evaluation raised.
    And the default cleanup does nothing when the session or the remote
    path was never set (is still [None]). *)
Theorem C1_cleanup_exactly_once given evaluator_config
    cooldown_sec alloc_repeat f1 f2 f3 f4 f5 max_workers
    (initializer : option Initializer) (self : RPCRunner)
    (runner_inputs : list RunnerInput) (i : nat)
    a b c d e config' evaluator_config' alloc_repeat' artifact_path
    device_type args_info (w : World) :
  RPCRunner__init__ startup_registry given evaluator_config cooldown_sec
    alloc_repeat f1 f2 f3 f4 f5 max_workers initializer = inr self ->
  submitted (pool (snd (run self runner_inputs))) !! i
  = Some (Task_worker_func a b c d e config' evaluator_config' alloc_repeat'
            artifact_path device_type args_info) ->
  let final :=
    snd (_worker_func
           (worker_registry startup_registry
              (pool (snd (run self runner_inputs))))
           a b c d e config' evaluator_config' alloc_repeat' artifact_path
           device_type args_info w) in
  cleanup_count (calls final) = 1%nat /\
  (exists before,
     calls final
     = before ++ [CallCleanup (session final) (remote_path final)]) /\
  (forall s p w', s = None \/ p = None ->
                  default_cleanup s p w' = (inr tt, w')).
Proof.
  intros Hinit Hi final. subst final.
  destruct (constructed_runner_tasks_resolve _ _ _ _ _ _ _ _ _ _ _ _ _ _
              _ _ _ _ _ _ _ _ _ _ _ Hinit Hi) as [fs Hfs].
  destruct (cleanup_last_when_resolved _ _ _ _ _ _ config' evaluator_config'
              alloc_repeat' artifact_path device_type args_info w fs Hfs)
    as [Hone Hlast].
  split; [exact Hone |]. split; [exact Hlast |].
  intros s p w'. apply default_cleanup_noop.
Qed.

End EndToEnd.

(** ** The remote path *)

Lemma osp_tail_no_slash (p acc : string) :
  has_slash p = false -> osp_tail acc p = acc.
Proof.
  revert acc. induction p as [| c rest IH]; intros acc; simpl.
  - reflexivity.
  - destruct (Ascii.eqb c "/"%char); [discriminate | apply IH].
Qed.

Lemma osp_tail_cases (p : string) :
  forall acc,
    (has_slash p = false /\ osp_tail acc p = acc) \/
    (has_slash p = true /\ has_slash (osp_tail acc p) = false /\
     exists d, p = d +:+ osp_tail acc p).
Proof.
  induction p as [| c rest IH]; intros acc; simpl.
  - left. auto.
  - destruct (Ascii.eqb c "/"%char) eqn:Hc.
    + right. split; [reflexivity |].
      destruct (IH rest) as [[Hn Ht] | (_ & Hn & d & Hd)].
      * rewrite Ht. split; [exact Hn |].
        exists (String c EmptyString). reflexivity.
      * split; [exact Hn |]. exists (String c d).
        change (String c rest = String c (d +:+ osp_tail rest rest)).
        now rewrite <- Hd.
    + destruct (IH acc) as [[Hn Ht] | (Hs & Hn & d & Hd)].
      * left. auto.
      * right. split; [exact Hs |]. split; [exact Hn |].
        exists (String c d).
        change (String c rest = String c (d +:+ osp_tail acc rest)).
        now rewrite <- Hd.
Qed.

Lemma osp_tail_join (dir name acc : string) :
  has_slash name = false ->
  osp_tail acc (dir +:+ "/" +:+ name) = name.
Proof.
  intros Hn. revert acc. induction dir as [| c rest IH]; intros acc; simpl.
  - now apply osp_tail_no_slash.
  - destruct (Ascii.eqb c "/"%char); apply IH.
Qed.

(** X16: the remote path that a task derives from the artifact path has no
    slash in it and is the end of the artifact path: the artifact is
    uploaded under a bare file name, whatever directory it sits in. *)
Theorem X16_remote_path_is_bare_suffix (artifact_path : string) :
  has_slash (osp_split_tail artifact_path) = false /\
  exists dir, artifact_path = dir +:+ osp_split_tail artifact_path.
Proof.
  unfold osp_split_tail.
  destruct (osp_tail_cases artifact_path artifact_path)
    as [[Hn Ht] | (_ & Hn & d & Hd)].
  - rewrite Ht. split; [exact Hn |]. exists EmptyString. reflexivity.
  - split; [exact Hn |]. exists d. exact Hd.
Qed.

(** X17: for a file name without a slash, the remote path of
    [dir/name] is [name], and so is the remote path of [name] alone. *)
Theorem X17_remote_path_of_join (dir name : string) :
  has_slash name = false ->
  osp_split_tail (dir +:+ "/" +:+ name) = name /\
  osp_split_tail name = name.
Proof.
  intros Hn. unfold osp_split_tail. split.
  - now apply osp_tail_join.
  - now apply osp_tail_no_slash.
Qed.

(** Witness of X17. *)
Lemma X17_witness :
  osp_split_tail ("/tmp/build" +:+ "/" +:+ "mm.so") = "mm.so" /\
  osp_split_tail "mm.so" = "mm.so".
Proof. apply (X17_remote_path_of_join "/tmp/build" "mm.so"). reflexivity. Defined.

(** ** More on the default allocation *)

Section AllocMore.

Context `{Remote}.

Lemma alloc_one_returns (f_random_fill : RemoteFunc) (device : Device)
    (arg_info : T_ARG_INFO_JSON_OBJ) w a w' :
  alloc_one f_random_fill device arg_info w = (inr a, w') ->
  is_tensor_kind arg_info = true /\ length arg_info = 3%nat.
Proof.
  unfold alloc_one, dispatcher_get, is_tensor_kind.
  destruct arg_info as [| [| b | z | s | l] tl]; simpl; try discriminate.
  destruct (String.eqb s "TENSOR"); [| discriminate].
  unfold alloc_tensor.
  destruct tl as [| dtype [| shape [| x tl]]]; try discriminate.
  auto.
Qed.

Lemma alloc_args_returns (f_random_fill : RemoteFunc) (device : Device)
    (args_info : T_ARG_INFO_JSON_OBJ_LIST) :
  forall args w l w',
    alloc_args f_random_fill device args_info args w = (inr l, w') ->
    length l = (length args + length args_info)%nat /\
    Forall (fun arg_info =>
              is_tensor_kind arg_info = true /\ length arg_info = 3%nat)
           args_info.
Proof.
  induction args_info as [| a rest IH]; intros args w l w'; simpl.
  - unfold op_ret. intros Hr. injection Hr as <- _. split; [lia | constructor].
  - unfold op_bind.
    destruct (alloc_one f_random_fill device a w) as [[e | arg] w1] eqn:Ha;
      [discriminate |].
    intros Hr. apply IH in Hr as [Hlen Hall].
    rewrite length_app in Hlen. simpl in Hlen. split; [lia |].
    constructor; [| exact Hall]. eapply alloc_one_returns; eauto.
Qed.

Lemma alloc_repeats_returns (f_random_fill : RemoteFunc) (device : Device)
    (args_info : T_ARG_INFO_JSON_OBJ_LIST) (n : nat) :
  forall repeated_args w l w',
    alloc_repeats f_random_fill device args_info n repeated_args w
    = (inr l, w') ->
    exists new,
      l = repeated_args ++ new /\ length new = n /\
      Forall (fun args => length args = length args_info) new /\
      (0 < n ->
       Forall (fun arg_info =>
                 is_tensor_kind arg_info = true /\ length arg_info = 3%nat)
              args_info)%nat.
Proof.
  induction n as [| n IH]; intros repeated_args w l w'; simpl.
  - unfold op_ret. intros Hr. injection Hr as <- _.
    exists []. rewrite app_nil_r. repeat split; [constructor | lia].
  - unfold op_bind.
    destruct (alloc_args f_random_fill device args_info [] w)
      as [[e | args] w1] eqn:Ha; [discriminate |].
    apply alloc_args_returns in Ha as [Hlen Hall]. simpl in Hlen.
    intros Hr. apply IH in Hr as (new & -> & Hn & Hshape & _).
    exists (args :: new). rewrite <- app_assoc. simpl.
    repeat split; auto.
Qed.

(** X18: what [default_alloc_argument] returns has one argument list per
    repeat, [alloc_repeat] of them (none for a negative count), and each
    list has one argument per entry of [args_info]. *)
Theorem X18_alloc_result_shape (session : RPCSession) (device : Device)
    (args_info : T_ARG_INFO_JSON_OBJ_LIST) (alloc_repeat : Z)
    (w w' : World) (repeated_args : list T_ARGUMENT_LIST) :
  default_alloc_argument session device args_info alloc_repeat w
  = (inr repeated_args, w') ->
  length repeated_args = Z.to_nat alloc_repeat /\
  Forall (fun args => length args = length args_info) repeated_args.
Proof.
  unfold default_alloc_argument, op_bind.
  destruct (get_global_func_on_rpc_session session _ _ w)
    as [[e | f] w0]; [discriminate |].
  intros Hr. apply alloc_repeats_returns in Hr as (new & -> & Hn & Hs & _).
  simpl. auto.
Qed.

(** X19: a call with [alloc_repeat >= 1] returns only if every entry of
    [args_info] is a ["TENSOR"] entry of exactly three fields; a tensor
    entry with a missing or an extra field makes the call raise. *)
Theorem X19_alloc_returns_only_for_tensors (session : RPCSession)
    (device : Device) (args_info : T_ARG_INFO_JSON_OBJ_LIST)
    (alloc_repeat : Z) (w w' : World)
    (repeated_args : list T_ARGUMENT_LIST) :
  0 < alloc_repeat ->
  default_alloc_argument session device args_info alloc_repeat w
  = (inr repeated_args, w') ->
  Forall (fun arg_info =>
            is_tensor_kind arg_info = true /\ length arg_info = 3%nat)
         args_info.
Proof.
  intros HR. unfold default_alloc_argument, op_bind.
  destruct (get_global_func_on_rpc_session session _ _ w)
    as [[e | f] w0]; [discriminate |].
  intros Hr. apply alloc_repeats_returns in Hr as (new & _ & _ & _ & Hall).
  apply Hall. lia.
Qed.

Lemma alloc_repeats_no_args (f_random_fill : RemoteFunc) (device : Device)
    (n : nat) :
  forall repeated_args w,
    alloc_repeats f_random_fill device [] n repeated_args w
    = (inr (repeated_args ++ replicate n []), w).
Proof.
  induction n as [| n IH]; intros repeated_args w; simpl.
  - now rewrite app_nil_r.
  - unfold op_bind, op_ret. rewrite IH. now rewrite <- app_assoc.
Qed.

(** X20: for a function without arguments ([args_info] empty) the call
    needs the random-fill function of the remote all the same: it raises
    when the lookup raises, and otherwise returns [alloc_repeat] empty
    argument lists and touches the remote no further. *)
Theorem X20_alloc_no_args (session : RPCSession) (device : Device)
    (alloc_repeat : Z) (w : World) :
  default_alloc_argument session device [] alloc_repeat w
  = match get_global_func_on_rpc_session session
            "tvm.contrib.random.random_fill"
            "Please make sure 'USE_RANDOM' is turned ON in the config.cmake on the RPC server."
            w with
    | (inl e, w0) => (inl e, w0)
    | (inr _, w0) => (inr (replicate (Z.to_nat alloc_repeat) []), w0)
    end.
Proof.
  unfold default_alloc_argument, op_bind.
  destruct (get_global_func_on_rpc_session session _ _ w)
    as [[e | f] w0]; [reflexivity |].
  now rewrite alloc_repeats_no_args.
Qed.

(** X21: with [alloc_repeat <= 0] the entries of [args_info] are never
    looked at: whatever they are, the call returns the empty list once the
    random-fill lookup has succeeded, and raises only if that lookup
    does. *)
Theorem X21_alloc_nonpositive_repeat (session : RPCSession) (device : Device)
    (args_info : T_ARG_INFO_JSON_OBJ_LIST) (alloc_repeat : Z) (w : World) :
  alloc_repeat <= 0 ->
  default_alloc_argument session device args_info alloc_repeat w
  = match get_global_func_on_rpc_session session
            "tvm.contrib.random.random_fill"
            "Please make sure 'USE_RANDOM' is turned ON in the config.cmake on the RPC server."
            w with
    | (inl e, w0) => (inl e, w0)
    | (inr _, w0) => (inr [], w0)
    end.
Proof.
  intros HR. unfold default_alloc_argument, op_bind.
  destruct (get_global_func_on_rpc_session session _ _ w)
    as [[e | f] w0]; [reflexivity |].
  replace (Z.to_nat alloc_repeat) with 0%nat by lia. reflexivity.
Qed.

End AllocMore.

(** ** More on the default evaluator *)

Section EvaluatorMore.

Context `{Remote}.

Lemma Timed_run_each (evaluator : Evaluator) (device : Device)
    w repeated_args samples w' :
  Timed evaluator device w repeated_args samples w' ->
  forall repeated_costs,
    run_each evaluator device repeated_args repeated_costs w
    = (inr (repeated_costs ++ samples), w').
Proof.
  induction 1 as [w | w w1 w2 w3 u args rest pr samples Hs Hc _ IH];
    intros repeated_costs; simpl.
  - now rewrite app_nil_r.
  - unfold op_bind. rewrite Hs, Hc, IH. now rewrite <- app_assoc.
Qed.

(** X22: [default_run_evaluator] returns exactly when the timing harness
    can be built and every argument list, in order, is synced and timed
    without an exception; what it returns is then the concatenation of the
    sample lists in that order, and the world is the one the last
    invocation left. *)
Theorem X22_run_evaluator_returns_iff (session : RPCSession)
    (rt_mod : RuntimeModule) (device : Device)
    (evaluator_config : EvaluatorConfig)
    (repeated_args : list T_ARGUMENT_LIST) (w w' : World)
    (costs : list float) :
  default_run_evaluator session rt_mod device evaluator_config
    repeated_args w = (inr costs, w')
  <->
  exists evaluator w1 samples,
    time_evaluator rt_mod (entry_name rt_mod) device
      (number evaluator_config) (repeat evaluator_config)
      (min_repeat_ms evaluator_config)
      (if enable_cpu_cache_flush evaluator_config
       then "cache_flush_cpu_non_first_arg" else EmptyString) w
    = (inr evaluator, w1) /\
    Timed evaluator device w1 repeated_args samples w' /\
    costs = concat samples.
Proof.
  split.
  - apply default_run_evaluator_flattens.
  - intros (evaluator & w1 & samples & Hev & HT & ->).
    unfold default_run_evaluator, op_bind, op_ret. rewrite Hev.
    rewrite (Timed_run_each _ _ _ _ _ _ HT []). simpl.
    now rewrite map_Python_float.
Qed.

Lemma run_each_stops (evaluator : Evaluator) (device : Device)
    w before samples w1 :
  Timed evaluator device w before samples w1 ->
  forall args rest repeated_costs,
    run_each evaluator device (before ++ args :: rest) repeated_costs w
    = match device_sync device w1 with
      | (inl e, w2) => (inl e, w2)
      | (inr _, w2) =>
          match Evaluator_call evaluator args w2 with
          | (inl e, w3) => (inl e, w3)
          | (inr profile_result, w3) =>
              run_each evaluator device rest
                (repeated_costs ++ samples ++ [results profile_result]) w3
          end
      end.
Proof.
  induction 1 as [w | w w1 w2 w3 u a0 rest0 pr samples Hs Hc _ IH];
    intros args rest repeated_costs; simpl.
  - unfold op_bind. destruct (device_sync device w) as [[e | u] w2];
      [reflexivity |].
    destruct (Evaluator_call evaluator args w2) as [[e | pr] w3];
      reflexivity.
  - unfold op_bind. rewrite Hs, Hc, IH.
    destruct (device_sync device w3) as [[e | u'] w4]; [reflexivity |].
    destruct (Evaluator_call evaluator args w4) as [[e | pr'] w5];
      [reflexivity |].
    rewrite <- !app_assoc. reflexivity.
Qed.

(** X23: the first device sync or timed invocation that raises ends
    [default_run_evaluator] with its exception: the argument lists after it
    are not run and the samples taken before it are not returned. *)
Theorem X23_run_evaluator_stops_at_first_failure (session : RPCSession)
    (rt_mod : RuntimeModule) (device : Device)
    (evaluator_config : EvaluatorConfig)
    (before : list T_ARGUMENT_LIST) (args : T_ARGUMENT_LIST)
    (rest : list T_ARGUMENT_LIST) (w w1 w2 w3 : World)
    (evaluator : Evaluator) (samples : list (list float)) (e : exn) :
  time_evaluator rt_mod (entry_name rt_mod) device
    (number evaluator_config) (repeat evaluator_config)
    (min_repeat_ms evaluator_config)
    (if enable_cpu_cache_flush evaluator_config
     then "cache_flush_cpu_non_first_arg" else EmptyString) w
  = (inr evaluator, w1) ->
  Timed evaluator device w1 before samples w2 ->
  (device_sync device w2 = (inl e, w3) \/
   exists u w2',
     device_sync device w2 = (inr u, w2') /\
     Evaluator_call evaluator args w2' = (inl e, w3)) ->
  default_run_evaluator session rt_mod device evaluator_config
    (before ++ args :: rest) w = (inl e, w3).
Proof.
  intros Hev HT Hfail.
  unfold default_run_evaluator, op_bind. rewrite Hev.
  rewrite (run_each_stops _ _ _ _ _ _ HT).
  destruct Hfail as [Hs | (u & w2' & Hs & Hc)].
  - now rewrite Hs.
  - now rewrite Hs, Hc.
Qed.

End EvaluatorMore.

(** ** Witnesses on the test double *)

(** Witness of C1: a runner whose create-session override always fails;
    the task of its one request still calls the cleanup, once. *)
Lemma C1_witness :
  cleanup_count
    (calls
       (snd (@_worker_func stub_remote ∅
               (Some (Callable failing_create_session)) None None None None
               stub_rpc_config (@EvaluatorConfig_normalized stub_remote None)
               2 "/tmp/mm.so" "cpu" [stub_tensor] [])))
  = 1%nat.
Proof.
  exact (proj1
    (C1_cleanup_exactly_once (H := stub_remote) ∅
       (Some stub_rpc_config) None 0%float 2
       (Some (Callable failing_create_session)) None None None None 1 None
       (mkRPCRunner stub_rpc_config
          (@EvaluatorConfig_normalized stub_remote None) 0%float 2
          (Some (Callable failing_create_session)) None None None None
          (mkPopenPoolExecutor 1 (session_timeout_sec stub_rpc_config) None
             [Task_check (Some (Callable failing_create_session)) None None
                None None]))
       [stub_request] 1 (Some (Callable failing_create_session)) None None
       None None stub_rpc_config
       (@EvaluatorConfig_normalized stub_remote None) 2 "/tmp/mm.so" "cpu"
       [stub_tensor] [] eq_refl eq_refl)).
Defined.

(** Witness of X2: a runner built with a config and no override. *)
Lemma X2_witness :
  exists config : RPCConfig, Some stub_rpc_config = Some config.
Proof.
  exact (proj1
    (X2_init_returns_only_if (H := stub_remote) ∅ (Some stub_rpc_config)
       None 0%float 1 None None None None None 1 None
       (mkRPCRunner stub_rpc_config
          (@EvaluatorConfig_normalized stub_remote None) 0%float 1
          None None None None None
          (mkPopenPoolExecutor 1 (session_timeout_sec stub_rpc_config)
             None [Task_check None None None None None]))
       eq_refl)).
Defined.

(** Witness of X3: the same construction. *)
Lemma X3_witness :
  exists config : RPCConfig, Some stub_rpc_config = Some config.
Proof.
  destruct (X3_init_result (H := stub_remote) ∅ (Some stub_rpc_config) None
              0%float 1 None None None None None 1 None
              (mkRPCRunner stub_rpc_config
                 (@EvaluatorConfig_normalized stub_remote None) 0%float 1
                 None None None None None
                 (mkPopenPoolExecutor 1 (session_timeout_sec stub_rpc_config)
                    None [Task_check None None None None None])))
    as (config & Hc & _).
  - reflexivity.
  - exists config. exact Hc.
Defined.

(** Witness of X8: the example request of the spec, all defaults. *)
Lemma X8_witness :
  exists s device rt_mod repeated_args,
    calls
      (snd (@_worker_func stub_remote ∅ None None None None None
              stub_rpc_config stub_evaluator_config 2 "/tmp/mm.so" "cpu"
              [stub_tensor] []))
    = [CallCreateSession stub_rpc_config;
       CallUploadModule s "/tmp/mm.so" (osp_split_tail "/tmp/mm.so");
       CallAllocArgument s device [stub_tensor] 2;
       CallRunEvaluator s rt_mod device stub_evaluator_config repeated_args;
       CallCleanup (Some s) (Some (osp_split_tail "/tmp/mm.so"))].
Proof.
  destruct (X8_worker_success_calls (H := stub_remote) ∅ None None None None
              None stub_rpc_config stub_evaluator_config 2 "/tmp/mm.so" "cpu"
              [stub_tensor] []
              (mkLifecycle default_create_session default_upload_module
                 default_alloc_argument default_run_evaluator
                 default_cleanup)
              (replicate 6 0.5%float)
              (snd (@_worker_func stub_remote ∅ None None None None None
                      stub_rpc_config stub_evaluator_config 2 "/tmp/mm.so"
                      "cpu" [stub_tensor] [])))
    as (s & device & rt_mod & repeated_args & w1 & w2 & w3 & w4 & w5
        & _ & _ & _ & _ & _ & Hcalls).
  - reflexivity.
  - reflexivity.
  - exists s, device, rt_mod, repeated_args. exact Hcalls.
Defined.

(** Witness of X9: session creation fails. *)
Lemma X9_witness :
  calls
    (snd (@_worker_func stub_remote ∅
            (Some (Callable failing_create_session)) None None None None
            stub_rpc_config stub_evaluator_config 2 "/tmp/mm.so" "cpu"
            [stub_tensor] []))
  = [CallCreateSession stub_rpc_config; CallCleanup None None].
Proof.
  eapply proj1.
  eapply (X9_worker_create_session_raises (H := stub_remote) ∅
            (Some (Callable failing_create_session)) None None None None).
  - reflexivity.
  - reflexivity.
Defined.

(** Witness of X10: the remote does not know the device type. *)
Lemma X10_witness :
  calls
    (snd (@_worker_func stub_remote_no_device ∅ None None None None None
            stub_rpc_config stub_evaluator_config 2 "/tmp/mm.so" "tpu"
            [stub_tensor] []))
  = [@CallCreateSession stub_remote_no_device stub_rpc_config;
     @CallCleanup stub_remote_no_device (Some tt) None].
Proof.
  eapply proj1.
  eapply (X10_worker_device_raises (H := stub_remote_no_device) ∅
            None None None None None).
  - reflexivity.
  - reflexivity.
  - reflexivity.
Defined.

(** Witness of X11: the upload fails. *)
Lemma X11_witness :
  calls
    (snd (@_worker_func stub_remote ∅ None
            (Some (Callable failing_upload_module)) None None None
            stub_rpc_config stub_evaluator_config 2 "/tmp/mm.so" "cpu"
            [stub_tensor] []))
  = [@CallCreateSession stub_remote stub_rpc_config;
     @CallUploadModule stub_remote tt "/tmp/mm.so"
       (osp_split_tail "/tmp/mm.so");
     @CallCleanup stub_remote (Some tt)
       (Some (osp_split_tail "/tmp/mm.so"))].
Proof.
  eapply proj1.
  eapply (X11_worker_upload_raises (H := stub_remote) ∅ None
            (Some (Callable failing_upload_module)) None None None).
  - reflexivity.
  - reflexivity.
  - reflexivity.
  - reflexivity.
Defined.

(** Witness of X12: the allocation fails. *)
Lemma X12_witness :
  calls
    (snd (@_worker_func stub_remote ∅ None None
            (Some (Callable failing_alloc_argument)) None None
            stub_rpc_config stub_evaluator_config 2 "/tmp/mm.so" "cpu"
            [stub_tensor] []))
  = [@CallCreateSession stub_remote stub_rpc_config;
     @CallUploadModule stub_remote tt "/tmp/mm.so"
       (osp_split_tail "/tmp/mm.so");
     @CallAllocArgument stub_remote tt tt [stub_tensor] 2;
     @CallCleanup stub_remote (Some tt)
       (Some (osp_split_tail "/tmp/mm.so"))].
Proof.
  eapply proj1.
  eapply (X12_worker_alloc_raises (H := stub_remote) ∅ None None
            (Some (Callable failing_alloc_argument)) None None).
  - reflexivity.
  - reflexivity.
  - reflexivity.
  - reflexivity.
  - reflexivity.
Defined.

(** Witness of X13: the evaluator fails. *)
Lemma X13_witness :
  exists e',
    fst (@_worker_func stub_remote ∅ None None None
           (Some (Callable failing_run_evaluator)) None
           stub_rpc_config stub_evaluator_config 2 "/tmp/mm.so" "cpu"
           [stub_tensor] []) = inl e'.
Proof.
  eapply proj2.
  eapply (X13_worker_run_evaluator_raises (H := stub_remote) ∅ None None None
            (Some (Callable failing_run_evaluator)) None).
  - reflexivity.
  - reflexivity.
  - reflexivity.
  - reflexivity.
  - reflexivity.
  - reflexivity.
Defined.

(** Witness of X14: session creation fails under the default cleanup. *)
Lemma X14_witness :
  fst (@_worker_func stub_remote ∅
         (Some (Callable failing_create_session)) None None None None
         stub_rpc_config stub_evaluator_config 2 "/tmp/mm.so" "cpu"
         [stub_tensor] ["boot"])
  = inl (mkExn RuntimeError "connection refused")
  /\
  world
    (snd (@_worker_func stub_remote ∅
            (Some (Callable failing_create_session)) None None None None
            stub_rpc_config stub_evaluator_config 2 "/tmp/mm.so" "cpu"
            [stub_tensor] ["boot"]))
  = ["boot"].
Proof.
  eapply (X14_default_cleanup_after_early_failure (H := stub_remote) ∅
            (Some (Callable failing_create_session)) None None None).
  - reflexivity.
  - left. reflexivity.
Defined.

(** Witness of X15: a runner built with a config; one request is run. *)
Lemma X15_witness :
  cleanup_count
    (calls
       (snd (@_worker_func stub_remote ∅ None None None None None
               stub_rpc_config (@EvaluatorConfig_normalized stub_remote None)
               2 "/tmp/mm.so" "cpu" [stub_tensor] [])))
  = 1%nat.
Proof.
  exact (proj2
    (X15_constructed_runner_tasks_clean_up (H := stub_remote) ∅
       (Some stub_rpc_config) None 0%float 2 None None None None None 1 None
       (mkRPCRunner stub_rpc_config
          (@EvaluatorConfig_normalized stub_remote None) 0%float 2
          None None None None None
          (mkPopenPoolExecutor 1 (session_timeout_sec stub_rpc_config) None
             [Task_check None None None None None]))
       [stub_request] 1 None None None None None stub_rpc_config
       (@EvaluatorConfig_normalized stub_remote None) 2 "/tmp/mm.so" "cpu"
       [stub_tensor] [] eq_refl eq_refl)).
Defined.

(** Witness of X18: one tensor, two repeats. *)
Lemma X18_witness :
  length [[0%nat]; [2%nat]] = Z.to_nat 2 /\
  Forall (fun args : list nat => length args = length [stub_tensor])
    [[0%nat]; [2%nat]].
Proof.
  eapply (X18_alloc_result_shape (H := stub_remote) tt tt [stub_tensor] 2 []).
  reflexivity.
Defined.

(** Witness of X19: the same call. *)
Lemma X19_witness :
  Forall (fun arg_info =>
            is_tensor_kind arg_info = true /\ length arg_info = 3%nat)
    [stub_tensor].
Proof.
  eapply (X19_alloc_returns_only_for_tensors (H := stub_remote) tt tt
            [stub_tensor] 2 []).
  - reflexivity.
  - reflexivity.
Defined.

(** Witness of X21: a negative repeat count and an unsupported entry. *)
Lemma X21_witness :
  @default_alloc_argument stub_remote tt tt [[JStr "INT"; JInt 3]] (-1)
    ["boot"]
  = (inr [], ["boot"]).
Proof.
  apply (X21_alloc_nonpositive_repeat (H := stub_remote) tt tt
           [[JStr "INT"; JInt 3]] (-1) ["boot"]).
  discriminate.
Defined.

(** Witness of X23: the device is lost before the first invocation. *)
Lemma X23_witness :
  @default_run_evaluator stub_remote_no_sync tt tt tt stub_evaluator_config
    ([] ++ [0%nat] :: [[2%nat]]) []
  = (inl (mkExn RuntimeError "device lost"), []).
Proof.
  eapply (X23_run_evaluator_stops_at_first_failure
            (H := stub_remote_no_sync) tt tt tt stub_evaluator_config []
            [0%nat] [[2%nat]] [] [] [] []).
  - reflexivity.
  - constructor.
  - left. reflexivity.
Defined.

(** Witness of X24: the future of one request. *)
Lemma X24_witness :
  Forall (fun fut => timeout_sec fut = session_timeout_sec stub_rpc_config)
    [mkRPCRunnerFuture (mkFuture 1) (session_timeout_sec stub_rpc_config)].
Proof.
  exact (X24_future_timeout_is_pool_timeout (H := stub_remote) ∅
           (Some stub_rpc_config) None 0%float 2 None None None None None 1
           None
           (mkRPCRunner stub_rpc_config
              (@EvaluatorConfig_normalized stub_remote None) 0%float 2
              None None None None None
              (mkPopenPoolExecutor 1 (session_timeout_sec stub_rpc_config)
                 None [Task_check None None None None None]))
           [stub_request] eq_refl).
Defined.
